(** * Matrix-factorization parameters: normalisation, validation, persistence

    A shallow embedding of [federatedrec/param/matrix_factorization_param.py]
    (classes [MtxFInitParam], [MatrixFactorizationParam], [HeteroMatrixParam])
    and the properties its specification states about it.

    Python objects are dynamically typed, so attribute values are elements of
    one universe [pyval]; a method that mutates [self] and may raise is a
    function from the object's state to an outcome and a new state. *)

From Stdlib Require Import ZArith List String Bool Lia.
From Stdlib Require Import Floats.PrimFloat Floats.SpecFloat Floats.FloatOps.
Import ListNotations.
Set Warnings "-inexact-float,-register-all".
Local Open Scope string_scope.
Local Open Scope Z_scope.

(** ** Python values *)

(** The values a configuration can hold: what a JSON job configuration
    decodes to, plus [types.SimpleNamespace] and [tuple].  A [float] is an
    IEEE-754 binary64, as in CPython; a [str] is a [string], one [ascii] per
    character.  A [dict] keeps its insertion order and has string keys; that
    its keys are pairwise distinct is the invariant [wf]. *)
Inductive pyval : Type :=
| PNone
| PBool (b : bool)
| PInt (z : Z)
| PFloat (f : float)
| PStr (s : string)
| PList (l : list pyval)
| PDict (d : list (string * pyval))
| PNamespace (attrs : list (string * pyval))
| PTuple (l : list pyval).

Definition items := list (string * pyval).

(** Induction on a value, with the hypothesis on every element of a list
    and every entry of a dictionary or namespace. *)
Section pyval_induction.

Variable P : pyval -> Prop.
Hypothesis HNone : P PNone.
Hypothesis HBool : forall b, P (PBool b).
Hypothesis HInt : forall z, P (PInt z).
Hypothesis HFloat : forall f, P (PFloat f).
Hypothesis HStr : forall s, P (PStr s).
Hypothesis HList : forall l, Forall P l -> P (PList l).
Hypothesis HDict : forall d, Forall (fun kv => P (snd kv)) d -> P (PDict d).
Hypothesis HNamespace :
  forall a, Forall (fun kv => P (snd kv)) a -> P (PNamespace a).
Hypothesis HTuple : forall l, Forall P l -> P (PTuple l).

Fixpoint pyval_nested_ind (v : pyval) : P v :=
  match v with
  | PNone => HNone
  | PBool b => HBool b
  | PInt z => HInt z
  | PFloat f => HFloat f
  | PStr s => HStr s
  | PList l =>
      HList l
        ((fix all (l : list pyval) : Forall P l :=
            match l with
            | [] => Forall_nil _
            | x :: r => Forall_cons x (pyval_nested_ind x) (all r)
            end) l)
  | PDict d =>
      HDict d
        ((fix all (d : list (string * pyval))
            : Forall (fun kv => P (snd kv)) d :=
            match d with
            | [] => Forall_nil _
            | (k, x) :: r => Forall_cons (k, x) (pyval_nested_ind x) (all r)
            end) d)
  | PNamespace a =>
      HNamespace a
        ((fix all (d : list (string * pyval))
            : Forall (fun kv => P (snd kv)) d :=
            match d with
            | [] => Forall_nil _
            | (k, x) :: r => Forall_cons (k, x) (pyval_nested_ind x) (all r)
            end) a)
  | PTuple l =>
      HTuple l
        ((fix all (l : list pyval) : Forall P l :=
            match l with
            | [] => Forall_nil _
            | x :: r => Forall_cons x (pyval_nested_ind x) (all r)
            end) l)
  end.

End pyval_induction.

Inductive exn : Type :=
| ValueError (msg : string) (args : list pyval)
| TypeError (msg : string)
| AttributeError (name : string)
| KeyError (key : string)
| OverflowError (msg : string).

Inductive Result (A : Type) : Type :=
| Ok (a : A)
| Raise (e : exn).
Arguments Ok {A} a.
Arguments Raise {A} e.

Definition is_ValueError (e : exn) : bool :=
  match e with ValueError _ _ => true | _ => false end.

(** [raises_ValueError r]: the call ended in a [ValueError]. *)
Definition raises_ValueError {A} (r : Result A) : Prop :=
  exists msg args, r = Raise (ValueError msg args).

(** [type(v).__name__] *)
Definition type_name (v : pyval) : string :=
  match v with
  | PNone => "NoneType"
  | PBool _ => "bool"
  | PInt _ => "int"
  | PFloat _ => "float"
  | PStr _ => "str"
  | PList _ => "list"
  | PDict _ => "dict"
  | PNamespace _ => "SimpleNamespace"
  | PTuple _ => "tuple"
  end.

Definition is_nil {A} (l : list A) : bool :=
  match l with [] => true | _ => false end.

(** [bool(v)], the test behind [if v] and [not v]. *)
Definition truthy (v : pyval) : bool :=
  match v with
  | PNone => false
  | PBool b => b
  | PInt z => negb (z =? 0)
  | PFloat f => negb (PrimFloat.eqb f 0%float)
  | PStr s => negb (s =? "")%string
  | PList l => negb (is_nil l)
  | PDict d => negb (is_nil d)
  | PNamespace _ => true
  | PTuple l => negb (is_nil l)
  end.

(** *** Dictionaries and attribute tables *)

Fixpoint lookup (d : items) (k : string) : option pyval :=
  match d with
  | [] => None
  | (k', v) :: r => if (k' =? k)%string then Some v else lookup r k
  end.

(** [d.get(k, default)] *)
Definition dict_get (d : items) (k : string) (default : pyval) : pyval :=
  match lookup d k with Some v => v | None => default end.

(** [k in d] *)
Definition dict_mem (d : items) (k : string) : bool :=
  match lookup d k with Some _ => true | None => false end.

(** [{k: v for k, v in d.items() if k != key}] *)
Definition dict_without (key : string) (d : items) : items :=
  filter (fun kv => negb (fst kv =? key)%string) d.

(** [d[k] = v]: an existing key keeps its position. *)
Fixpoint dict_set (d : items) (k : string) (v : pyval) : items :=
  match d with
  | [] => [(k, v)]
  | (k', v') :: r =>
      if (k' =? k)%string then (k', v) :: r else (k', v') :: dict_set r k v
  end.

(** [v.name] *)
Definition getattr (v : pyval) (name : string) : Result pyval :=
  match v with
  | PNamespace attrs =>
      match lookup attrs name with
      | Some x => Ok x
      | None => Raise (AttributeError name)
      end
  | _ => Raise (AttributeError name)
  end.

(** [v.__dict__[name]] *)
Definition vars_getitem (v : pyval) (name : string) : Result pyval :=
  match v with
  | PNamespace attrs =>
      match lookup attrs name with
      | Some x => Ok x
      | None => Raise (KeyError name)
      end
  | _ => Raise (AttributeError "__dict__")
  end.

(** [v[k]] for a dictionary [v]. *)
Definition getitem (v : pyval) (k : string) : Result pyval :=
  match v with
  | PDict d =>
      match lookup d k with
      | Some x => Ok x
      | None => Raise (KeyError k)
      end
  | _ => Raise (TypeError "object is not subscriptable")
  end.

(** [k in v] for a dictionary [v]. *)
Definition contains (v : pyval) (k : string) : Result bool :=
  match v with
  | PDict d => Ok (dict_mem d k)
  | _ => Raise (TypeError "argument is not iterable")
  end.

(** *** Numbers *)

(** Python compares an [int] with a [float] exactly (no rounding of the
    integer), and a NaN is unordered with everything. *)
Inductive ordering : Type :=
| Unordered
| Ordered (c : comparison).

Definition float_compare_int (f : float) (n : Z) : ordering :=
  match Prim2SF f with
  | S754_nan => Unordered
  | S754_zero _ => Ordered (0 ?= n)
  | S754_infinity neg => Ordered (if neg then Lt else Gt)
  | S754_finite neg m e =>
      let v := if neg then Z.neg m else Z.pos m in
      Ordered (if 0 <=? e then (v * 2 ^ e ?= n) else (v ?= n * 2 ^ (- e)))
  end.

(** The order of a value and an integer constant; [None] when the value is
    not a number.  [bool] is a subclass of [int]: [True] is 1, [False] is 0. *)
Definition compare_int (v : pyval) (n : Z) : option ordering :=
  match v with
  | PBool b => Some (Ordered (Z.b2z b ?= n))
  | PInt z => Some (Ordered (z ?= n))
  | PFloat f => Some (float_compare_int f n)
  | _ => None
  end.

(** [v != n]; values of other types are simply different. *)
Definition py_ne (v : pyval) (n : Z) : bool :=
  match compare_int v n with
  | Some (Ordered Eq) => false
  | _ => true
  end.

(** [v < n] *)
Definition py_lt (v : pyval) (n : Z) : Result bool :=
  match compare_int v n with
  | Some (Ordered Lt) => Ok true
  | Some _ => Ok false
  | None => Raise (TypeError "'<' not supported")
  end.

(** [v <= n] *)
Definition py_le (v : pyval) (n : Z) : Result bool :=
  match compare_int v n with
  | Some (Ordered Lt) | Some (Ordered Eq) => Ok true
  | Some _ => Ok false
  | None => Raise (TypeError "'<=' not supported")
  end.

(** [v >= n] *)
Definition py_ge (v : pyval) (n : Z) : Result bool :=
  match compare_int v n with
  | Some (Ordered Gt) | Some (Ordered Eq) => Ok true
  | Some _ => Ok false
  | None => Raise (TypeError "'>=' not supported")
  end.

(** [isinstance(v, (int, float))] *)
Definition isinstance_int_float (v : pyval) : bool :=
  match v with
  | PBool _ | PInt _ | PFloat _ => true
  | _ => false
  end.

(** [isinstance(v, int)] *)
Definition isinstance_int (v : pyval) : bool :=
  match v with
  | PBool _ | PInt _ => true
  | _ => false
  end.

(** ** The three normalisers *)

(** [SimpleNamespace(converge_func=m, eps=e)] *)
Definition early_stop_ns (m e : pyval) : pyval :=
  PNamespace [("converge_func", m); ("eps", e)].

(** [SimpleNamespace(optimizer=o, kwargs=kw)] *)
Definition optimizer_ns (o : pyval) (kw : items) : pyval :=
  PNamespace [("optimizer", o); ("kwargs", PDict kw)].

Definition default_eps : pyval := PFloat 0.0001%float.

(** The messages are the source's f-strings, the formatted values kept beside
    the template ([type(param)] by its name). *)
Definition _parse_early_stop (param : pyval) : Result pyval :=
  match param with
  | PStr _ => Ok (early_stop_ns param default_eps)
  | PDict d =>
      let early_stop := dict_get d "early_stop" PNone in
      let eps := dict_get d "eps" default_eps in
      if negb (truthy early_stop)
      then Raise (ValueError "early_stop config: {} invalid" [param])
      else Ok (early_stop_ns early_stop eps)
  | _ => Raise (ValueError "invalid type for early_stop: {}"
                  [PStr (type_name param)])
  end.

Definition _parse_optimizer (param : pyval) : Result pyval :=
  let kwargs : items := [] in
  match param with
  | PStr _ => Ok (optimizer_ns param kwargs)
  | PDict d =>
      let optimizer := dict_get d "optimizer" (PDict kwargs) in
      if negb (truthy optimizer)
      then Raise (ValueError "optimizer config: {} invalid" [param])
      else
        let kwargs := dict_without "optimizer" d in
        Ok (optimizer_ns optimizer kwargs)
  | _ => Raise (ValueError "invalid type for optimize: {}"
                  [PStr (type_name param)])
  end.

Definition _parse_metrics (param : pyval) : Result pyval :=
  if negb (truthy param) then Ok (PList [])
  else
    match param with
    | PStr _ => Ok (PList [param])
    | PList _ => Ok param
    | _ => Raise (ValueError "invalid metrics type: {}"
                    [PStr (type_name param)])
    end.

(** The canonical shapes the normalisers produce. *)
Definition canonical_early_stop (v : pyval) : Prop :=
  exists m e, v = early_stop_ns m e.

Definition canonical_optimizer (v : pyval) : Prop :=
  exists o kw, v = optimizer_ns o kw /\ dict_mem kw "optimizer" = false.

Definition canonical_metrics (v : pyval) : Prop :=
  exists l, v = PList l.

(** ** Methods: state and exceptions *)

(** A method on an object of state [S]: it returns or raises, and leaves the
    object in a new state either way (nothing is rolled back when it raises). *)
Definition M (S A : Type) : Type := S -> Result A * S.

Definition ret {S A} (a : A) : M S A := fun s => (Ok a, s).

Definition bind {S A B} (m : M S A) (k : A -> M S B) : M S B :=
  fun s =>
    match m s with
    | (Ok a, s') => k a s'
    | (Raise e, s') => (Raise e, s')
    end.

Definition raise {S A} (e : exn) : M S A := fun s => (Raise e, s).

(** Evaluate an expression that may raise. *)
Definition eval {S A} (r : Result A) : M S A := fun s => (r, s).

(** Read an attribute of [self]. *)
Definition attr {S A} (f : S -> A) : M S A := fun s => (Ok (f s), s).

(** Assign an attribute of [self]. *)
Definition assign {S} (f : S -> S) : M S unit := fun s => (Ok tt, f s).

Definition when {S} (c : bool) (m : M S unit) : M S unit :=
  if c then m else ret tt.

Notation "x <- m ;; k" := (bind m (fun x => k))
  (at level 61, m at next level, right associativity).
Notation "m ;; k" := (bind m (fun _ => k))
  (at level 61, right associativity).

(** ** The framework around the file *)

(** [MtxFInitParam]: the attributes [InitParam.__init__] sets are of a class
    that is not part of this file; [embed_dim] and [init_method] are set
    here. *)
Record MtxFInitParam_ (Base : Type) : Type := {
  inherited : Base;
  embed_dim : pyval;
  init_method : pyval
}.
Arguments inherited {Base} _.
Arguments embed_dim {Base} _.
Arguments init_method {Base} _.

(** What the file imports from [federatedml]: the minimum batch size of
    [consts], the parameter classes it stores or extends, and the range of an
    integer field of the persisted record.  [InitParam_check] is
    [InitParam.check] run on an [MtxFInitParam]: it may change the object, and
    it fails, if it does, with an input error (message and values). *)
Class Federatedml : Type := {
  MIN_BATCH_SIZE : Z;
  InitParam : Type;
  InitParam_init : InitParam;
  InitParam_check :
    MtxFInitParam_ InitParam ->
    option (string * list pyval) * MtxFInitParam_ InitParam;
  PredictParam : Type;
  CrossValidationParam : Type;
  int_field : Z -> bool
}.

Section Params.

Context {fml : Federatedml}.

Definition MtxFInitParam : Type := MtxFInitParam_ InitParam.

(** [MtxFInitParam.__init__] *)
Definition MtxFInitParam_new (embed_dim init_method : pyval) : MtxFInitParam :=
  {| inherited := InitParam_init;
     embed_dim := embed_dim;
     init_method := init_method |}.

(** ** MatrixFactorizationParam *)

Record MatrixFactorizationParam : Type := {
  secure_aggregate : pyval;
  aggregate_every_n_epoch : pyval;
  early_stop : pyval;
  metrics : pyval;
  loss : pyval;
  optimizer : pyval;
  batch_size : pyval;
  init_param : MtxFInitParam;
  max_iter : pyval;
  predict_param : PredictParam;
  cv_param : CrossValidationParam;
  validation_freqs : pyval
}.

(** [MatrixFactorizationParam.__init__]; [copy.deepcopy] of a value is the
    value. *)
Definition MatrixFactorizationParam_new
    (secure_aggregate aggregate_every_n_epoch early_stop optimizer
       batch_size : pyval)
    (init_param : MtxFInitParam) (max_iter : pyval)
    (predict_param : PredictParam) (cv_param : CrossValidationParam)
    (validation_freqs metrics loss : pyval) : MatrixFactorizationParam :=
  {| secure_aggregate := secure_aggregate;
     aggregate_every_n_epoch := aggregate_every_n_epoch;
     early_stop := early_stop;
     metrics := metrics;
     loss := loss;
     optimizer := optimizer;
     batch_size := batch_size;
     init_param := init_param;
     max_iter := max_iter;
     predict_param := predict_param;
     cv_param := cv_param;
     validation_freqs := validation_freqs |}.

Definition set_secure_aggregate (v : pyval) (p : MatrixFactorizationParam) :=
  MatrixFactorizationParam_new v (aggregate_every_n_epoch p) (early_stop p)
    (optimizer p) (batch_size p) (init_param p) (max_iter p) (predict_param p)
    (cv_param p) (validation_freqs p) (metrics p) (loss p).

Definition set_aggregate_every_n_epoch (v : pyval)
    (p : MatrixFactorizationParam) :=
  MatrixFactorizationParam_new (secure_aggregate p) v (early_stop p)
    (optimizer p) (batch_size p) (init_param p) (max_iter p) (predict_param p)
    (cv_param p) (validation_freqs p) (metrics p) (loss p).

Definition set_early_stop (v : pyval) (p : MatrixFactorizationParam) :=
  MatrixFactorizationParam_new (secure_aggregate p)
    (aggregate_every_n_epoch p) v (optimizer p) (batch_size p) (init_param p)
    (max_iter p) (predict_param p) (cv_param p) (validation_freqs p)
    (metrics p) (loss p).

Definition set_optimizer (v : pyval) (p : MatrixFactorizationParam) :=
  MatrixFactorizationParam_new (secure_aggregate p)
    (aggregate_every_n_epoch p) (early_stop p) v (batch_size p) (init_param p)
    (max_iter p) (predict_param p) (cv_param p) (validation_freqs p)
    (metrics p) (loss p).

Definition set_batch_size (v : pyval) (p : MatrixFactorizationParam) :=
  MatrixFactorizationParam_new (secure_aggregate p)
    (aggregate_every_n_epoch p) (early_stop p) (optimizer p) v (init_param p)
    (max_iter p) (predict_param p) (cv_param p) (validation_freqs p)
    (metrics p) (loss p).

Definition set_init_param (v : MtxFInitParam) (p : MatrixFactorizationParam) :=
  MatrixFactorizationParam_new (secure_aggregate p)
    (aggregate_every_n_epoch p) (early_stop p) (optimizer p) (batch_size p) v
    (max_iter p) (predict_param p) (cv_param p) (validation_freqs p)
    (metrics p) (loss p).

Definition set_max_iter (v : pyval) (p : MatrixFactorizationParam) :=
  MatrixFactorizationParam_new (secure_aggregate p)
    (aggregate_every_n_epoch p) (early_stop p) (optimizer p) (batch_size p)
    (init_param p) v (predict_param p) (cv_param p) (validation_freqs p)
    (metrics p) (loss p).

Definition set_metrics (v : pyval) (p : MatrixFactorizationParam) :=
  MatrixFactorizationParam_new (secure_aggregate p)
    (aggregate_every_n_epoch p) (early_stop p) (optimizer p) (batch_size p)
    (init_param p) (max_iter p) (predict_param p) (cv_param p)
    (validation_freqs p) v (loss p).

Definition set_loss (v : pyval) (p : MatrixFactorizationParam) :=
  MatrixFactorizationParam_new (secure_aggregate p)
    (aggregate_every_n_epoch p) (early_stop p) (optimizer p) (batch_size p)
    (init_param p) (max_iter p) (predict_param p) (cv_param p)
    (validation_freqs p) (metrics p) v.

(** *** [check], block by block *)

(** The messages, with [{}] where the offending value is formatted in. *)
Definition batch_size_msg : string :=
  "matrix_factorization's {} not supported, should be larger than 10 or -1 represent for all data".
Definition decay_msg : string :=
  "svdpp's optimizer.decay {} not supported, should be 'int' or 'float' and greater than 0".
Definition learning_rate_msg : string :=
  "svdpp's optimizer.learning_rate {} not supported, should be 'int' or 'float', and greater than 0".
Definition max_iter_type_msg : string :=
  "matrix_factorization's max_iter {} not supported, should be int type".
Definition max_iter_value_msg : string :=
  "matrix_factorization's max_iter must be greater or equal to 1".

(** Lines 108-110: the three fields are overwritten by their normal forms. *)
Definition normalize : M MatrixFactorizationParam unit :=
  v <- attr early_stop;;
  es <- eval (_parse_early_stop v);;
  assign (set_early_stop es);;
  v <- attr optimizer;;
  op <- eval (_parse_optimizer v);;
  assign (set_optimizer op);;
  v <- attr metrics;;
  ms <- eval (_parse_metrics v);;
  assign (set_metrics ms).

(** Lines 112-116.  [or] evaluates its right operand only when the left one
    is false. *)
Definition check_batch_size : M MatrixFactorizationParam unit :=
  b <- attr batch_size;;
  when (py_ne b (-1))
    (bad <- (if negb (existsb (String.eqb (type_name b)) ["int"])
             then ret true
             else eval (py_lt b MIN_BATCH_SIZE));;
     when bad
       (raise (ValueError batch_size_msg [b]))).

(** Lines 118-125 and 127-134: the same test on the entries ['decay'] and
    ['learning_rate'] of [self.optimizer.kwargs]; the entry is read once. *)
Definition check_kwarg (name msg : string) : M MatrixFactorizationParam unit :=
  op <- attr optimizer;;
  kwargs <- eval (vars_getitem op "kwargs");;
  present <- eval (contains kwargs name);;
  when present
    (kwargs <- eval (getattr op "kwargs");;
     v <- eval (getitem kwargs name);;
     bad <- (if negb (isinstance_int_float v)
             then ret true
             else
               neg <- eval (py_lt v 0);;
               ret (isinstance_int_float v && neg));;
     when bad (raise (ValueError msg [v]))).

(** Line 136: [self.init_param.check()]. *)
Definition check_init_param : M MatrixFactorizationParam unit :=
  ip <- attr init_param;;
  match InitParam_check ip with
  | (None, ip') => assign (set_init_param ip')
  | (Some (msg, args), ip') =>
      assign (set_init_param ip');; raise (ValueError msg args)
  end.

(** Lines 138-143. *)
Definition check_max_iter : M MatrixFactorizationParam unit :=
  m <- attr max_iter;;
  if negb (type_name m =? "int")%string
  then raise (ValueError max_iter_type_msg [m])
  else
    nonpos <- eval (py_le m 0);;
    when nonpos (raise (ValueError max_iter_value_msg [])).

(** [MatrixFactorizationParam.check] *)
Definition check : M MatrixFactorizationParam pyval :=
  normalize;;
  check_batch_size;;
  check_kwarg "decay" decay_msg;;
  check_kwarg "learning_rate" learning_rate_msg;;
  check_init_param;;
  check_max_iter;;
  ret (PBool true).

(** ** HeteroMatrixParam *)

Record HeteroMatrixParam : Type := {
  super : MatrixFactorizationParam;
  aggregate_iters : pyval
}.

(** Run a method of the base class on a [HeteroMatrixParam]. *)
Definition on_super {A} (m : M MatrixFactorizationParam A)
  : M HeteroMatrixParam A :=
  fun self =>
    let (r, b) := m (super self) in
    (r, {| super := b; aggregate_iters := aggregate_iters self |}).

(** [HeteroMatrixParam.__init__]: the base constructor is called with eight
    keyword arguments and takes its defaults for [secure_aggregate] ([True]),
    [aggregate_every_n_epoch] (1), [metrics] ([None]) and [loss] (['mse']). *)
Definition HeteroMatrixParam_new
    (penalty tol alpha optimizer batch_size learning_rate : pyval)
    (init_param : MtxFInitParam) (max_iter early_stop : pyval)
    (predict_param : PredictParam) (cv_param : CrossValidationParam)
    (decay decay_sqrt aggregate_iters validation_freqs : pyval)
  : HeteroMatrixParam :=
  {| super :=
       MatrixFactorizationParam_new (PBool true) (PInt 1) early_stop optimizer
         batch_size init_param max_iter predict_param cv_param
         validation_freqs PNone (PStr "mse");
     aggregate_iters := aggregate_iters |}.

(** [HeteroMatrixParam.check] *)
Definition HeteroMatrixParam_check : M HeteroMatrixParam pyval :=
  on_super check;;
  a <- attr aggregate_iters;;
  when (negb (isinstance_int a))
    (raise (ValueError
              "matrix_factorization's aggregate_iters {} not supported, should be int type"
              [a]));;
  ret (PBool true).

End Params.

(** ** JSON *)

(** The text [json.dumps] writes and [json.loads] reads is represented by
    the document it denotes; an integer literal and a float literal are
    different tokens.  [Unparsable] stands for any text that is no JSON. *)
Inductive json : Type :=
| JNull
| JBool (b : bool)
| JInt (z : Z)
| JFloat (f : float)
| JString (s : string)
| JArray (l : list json)
| JObject (members : list (string * json)).

Inductive text : Type :=
| Unparsable
| Document (j : json).

Definition not_serializable {A} : Result A :=
  Raise (TypeError "Object of type SimpleNamespace is not JSON serializable").

(** Apply [f] to the elements in order; the first exception ends it. *)
Fixpoint traverse {A B} (f : A -> Result B) (l : list A) : Result (list B) :=
  match l with
  | [] => Ok []
  | x :: r =>
      match f x with
      | Raise e => Raise e
      | Ok y =>
          match traverse f r with
          | Raise e => Raise e
          | Ok ys => Ok (y :: ys)
          end
      end
  end.

(** The encoder, on a value; a tuple is written as an array. *)
Fixpoint encode (v : pyval) : Result json :=
  match v with
  | PNone => Ok JNull
  | PBool b => Ok (JBool b)
  | PInt z => Ok (JInt z)
  | PFloat f => Ok (JFloat f)
  | PStr s => Ok (JString s)
  | PList l =>
      match traverse encode l with
      | Ok js => Ok (JArray js)
      | Raise e => Raise e
      end
  | PDict d =>
      match
        traverse
          (fun kv : string * pyval =>
             let (k, x) := kv in
             match encode x with
             | Ok j => Ok (k, j)
             | Raise e => Raise e
             end) d
      with
      | Ok js => Ok (JObject js)
      | Raise e => Raise e
      end
  | PNamespace _ => not_serializable
  | PTuple l =>
      match traverse encode l with
      | Ok js => Ok (JArray js)
      | Raise e => Raise e
      end
  end.

(** The decoder: a repeated member name keeps its last value. *)
Fixpoint decode (j : json) : pyval :=
  match j with
  | JNull => PNone
  | JBool b => PBool b
  | JInt z => PInt z
  | JFloat f => PFloat f
  | JString s => PStr s
  | JArray l => PList (map decode l)
  | JObject members =>
      PDict
        (fold_left
           (fun (acc : items) (m : string * json) =>
              let (k, x) := m in dict_set acc k (decode x))
           members [])
  end.

(** [json.dumps(v)] *)
Definition json_dumps (v : pyval) : Result text :=
  match encode v with
  | Ok j => Ok (Document j)
  | Raise e => Raise e
  end.

(** [json.loads(s)]; [json.JSONDecodeError] is a [ValueError]. *)
Definition json_loads (s : text) : Result pyval :=
  match s with
  | Document j => Ok (decode j)
  | Unparsable => Raise (ValueError "JSONDecodeError" [])
  end.

(** Dictionaries whose keys are pairwise distinct, at every depth. *)
Fixpoint distinct (l : list string) : bool :=
  match l with
  | [] => true
  | k :: r => negb (existsb (String.eqb k) r) && distinct r
  end.

Fixpoint wf (v : pyval) : bool :=
  match v with
  | PList l => forallb wf l
  | PDict d =>
      distinct (map fst d)
      && forallb (fun kv : string * pyval => let (_, x) := kv in wf x) d
  | PNamespace a =>
      forallb (fun kv : string * pyval => let (_, x) := kv in wf x) a
  | PTuple l => forallb wf l
  | _ => true
  end.

(** The values [json.loads] can return: [None], booleans, integers, floats,
    strings, lists and string-keyed dictionaries of such; no tuple (the encoder
    writes it as an array, which is read back as a list) and no
    [SimpleNamespace] (the encoder refuses it). *)
Fixpoint json_native (v : pyval) : bool :=
  match v with
  | PList l => forallb json_native l
  | PDict d =>
      forallb (fun kv : string * pyval => let (_, x) := kv in json_native x) d
  | PNamespace _ => false
  | PTuple _ => false
  | _ => true
  end.


(** ** The persisted record *)

(** Modelled from the spec: the generated module [mf_model_meta_pb2] is not
    in the source tree.  The record [HeteroMFParam] has the fields the spec
    lists: secure-aggregate flag, aggregation cadence, batch size, max
    iterations, early-stop (method, epsilon), repeated metric names, optimizer
    (name, text-encoded argument blob), loss name, embedding dimension.  The
    epsilon is a binary64 value and an integer field takes the integers
    [int_field] allows.  Assigning to a field converts as the protobuf runtime
    does: an integer field takes an [int] or a [bool], a boolean field a
    [bool] or an [int], a double field any number, a string field a [str]
    only; anything else is a [TypeError]. *)
Record EarlyStop : Type := {
  pb_early_stop : string;
  pb_eps : float
}.

(** Modelled from the spec: the optimizer message of [mf_model_meta_pb2],
    a name and the text-encoded argument blob. *)
Record Optimizer : Type := {
  pb_optimizer : string;
  pb_args : text
}.

(** Modelled from the spec: the message [mf_model_meta_pb2.HeteroMFParam],
    with the fields of the persisted binary schema. *)
Record HeteroMFParam : Type := {
  pb_secure_aggregate : bool;
  pb_aggregate_every_n_epoch : Z;
  pb_batch_size : Z;
  pb_max_iter : Z;
  pb_es : EarlyStop;
  pb_metrics : list string;
  pb_opt : Optimizer;
  pb_loss : string;
  pb_embed_dim : Z
}.

(** Modelled from the spec: assigning to a field of the record a value it
    does not take is a [TypeError]. *)
Definition wrong_type {A} (v : pyval) : Result A :=
  Raise (TypeError (type_name v ++ " has type not accepted by the field")).

(** [float(z)]: the binary64 nearest to the integer, ties to even. *)
Definition float_of_Z (z : Z) : float :=
  SF2Prim (binary_normalize prec emax z 0 false).

(** An integer too large for a binary64 is an [OverflowError]. *)
Definition double_of_int (z : Z) : Result float :=
  match Prim2SF (float_of_Z z) with
  | S754_infinity _ =>
      Raise (OverflowError "int too large to convert to float")
  | _ => Ok (float_of_Z z)
  end.

(** Modelled from the spec: assigning to the boolean field. *)
Definition to_bool (v : pyval) : Result bool :=
  match v with
  | PBool b => Ok b
  | PInt z => Ok (negb (z =? 0))
  | _ => wrong_type v
  end.

(** Modelled from the spec: assigning to a string field. *)
Definition to_str (v : pyval) : Result string :=
  match v with PStr s => Ok s | _ => wrong_type v end.

(** Modelled from the spec: assigning to the double field. *)
Definition to_float (v : pyval) : Result float :=
  match v with
  | PFloat f => Ok f
  | PInt z => double_of_int z
  | PBool b => double_of_int (Z.b2z b)
  | _ => wrong_type v
  end.

Section Persistence.

Context {fml : Federatedml}.

(** Modelled from the spec: assigning to an integer field of the record;
    an integer outside the field's range is a [ValueError]. *)
Definition to_int (v : pyval) : Result Z :=
  match v with
  | PInt z =>
      if int_field z then Ok z
      else Raise (ValueError "Value out of range: {}" [v])
  | PBool b =>
      if int_field (Z.b2z b) then Ok (Z.b2z b)
      else Raise (ValueError "Value out of range: {}" [v])
  | _ => wrong_type v
  end.

(** The values [for x in v] goes through. *)
Definition iterate (v : pyval) : Result (list pyval) :=
  match v with
  | PList l => Ok l
  | PDict d => Ok (map (fun kv => PStr (fst kv)) d)
  | PStr s => Ok (map (fun c => PStr (String c EmptyString)) (list_ascii_of_string s))
  | PTuple l => Ok l
  | _ => Raise (TypeError "object is not iterable")
  end.

(** [for metric in metrics: pb.metrics.append(metric)] *)
Fixpoint append_all (l : list pyval) : Result (list string) :=
  match l with
  | [] => Ok []
  | x :: r =>
      match to_str x with
      | Raise e => Raise e
      | Ok s =>
          match append_all r with
          | Raise e => Raise e
          | Ok ss => Ok (s :: ss)
          end
      end
  end.

(** [HeteroMatrixParam.generate_pb]; the fields of [pb] are set in the
    source's order, so the first assignment that fails decides the error. *)
Definition generate_pb : M HeteroMatrixParam HeteroMFParam :=
  self <- attr super;;
  sa <- eval (to_bool (secure_aggregate self));;
  ag <- eval (to_int (aggregate_every_n_epoch self));;
  bs <- eval (to_int (batch_size self));;
  mi <- eval (to_int (max_iter self));;
  cf <- eval (getattr (early_stop self) "converge_func");;
  cf <- eval (to_str cf);;
  eps <- eval (getattr (early_stop self) "eps");;
  eps <- eval (to_float eps);;
  ms <- eval (iterate (metrics self));;
  ms <- eval (append_all ms);;
  name <- eval (getattr (optimizer self) "optimizer");;
  name <- eval (to_str name);;
  kwargs <- eval (getattr (optimizer self) "kwargs");;
  args <- eval (json_dumps kwargs);;
  ls <- eval (to_str (loss self));;
  ed <- eval (to_int (embed_dim (init_param self)));;
  ret {| pb_secure_aggregate := sa;
         pb_aggregate_every_n_epoch := ag;
         pb_batch_size := bs;
         pb_max_iter := mi;
         pb_es := {| pb_early_stop := cf; pb_eps := eps |};
         pb_metrics := ms;
         pb_opt := {| pb_optimizer := name; pb_args := args |};
         pb_loss := ls;
         pb_embed_dim := ed |}.

(** [dict(optimizer=name, **extra)] *)
Definition dict_optimizer (name extra : pyval) : Result pyval :=
  match extra with
  | PDict d =>
      if dict_mem d "optimizer"
      then Raise (TypeError "got multiple values for keyword argument 'optimizer'")
      else Ok (PDict (("optimizer", name) :: d))
  | _ => Raise (TypeError "argument after ** must be a mapping")
  end.

(** [HeteroMatrixParam.restore_from_pb]; [MtxFInitParam(embed_dim=...)]
    takes the default [init_method]. *)
Definition restore_from_pb (pb : HeteroMFParam) : M HeteroMatrixParam unit :=
  on_super
    (assign (set_secure_aggregate (PBool (pb_secure_aggregate pb)));;
     assign (set_aggregate_every_n_epoch (PInt (pb_aggregate_every_n_epoch pb)));;
     assign (set_batch_size (PInt (pb_batch_size pb)));;
     assign (set_max_iter (PInt (pb_max_iter pb)));;
     es <- eval (_parse_early_stop
                   (PDict [("early_stop", PStr (pb_early_stop (pb_es pb)));
                           ("eps", PFloat (pb_eps (pb_es pb)))]));;
     assign (set_early_stop es);;
     assign (set_metrics (PList (map PStr (pb_metrics pb))));;
     extra <- eval (json_loads (pb_args (pb_opt pb)));;
     d <- eval (dict_optimizer (PStr (pb_optimizer (pb_opt pb))) extra);;
     op <- eval (_parse_optimizer d);;
     assign (set_optimizer op);;
     assign (set_loss (PStr (pb_loss pb)));;
     assign (set_init_param
               (MtxFInitParam_new (PInt (pb_embed_dim pb)) (PStr "random_normal")))).

End Persistence.

(** A framework to run the examples in: [consts.MIN_BATCH_SIZE] is 10, the
    integer fields are 32 bits wide, and [InitParam.check] accepts an
    [init_method] that is a string and rejects anything else. *)
Definition sample_init_check (ip : MtxFInitParam_ unit)
  : option (string * list pyval) * MtxFInitParam_ unit :=
  match init_method ip with
  | PStr _ => (None, ip)
  | v => (Some ("Init param's init_method {} not supported, should be str type", [v]), ip)
  end.

Definition sample : Federatedml :=
  {| MIN_BATCH_SIZE := 10;
     InitParam := unit;
     InitParam_init := tt;
     InitParam_check := sample_init_check;
     PredictParam := unit;
     CrossValidationParam := unit;
     int_field := fun z => (- 2 ^ 31 <=? z) && (z <? 2 ^ 31) |}.

(** [MatrixFactorizationParam()], every argument at its default, in the
    sample framework. *)
Definition default_init_param : @MtxFInitParam sample :=
  MtxFInitParam_new (PInt 10) (PStr "random_normal").

Definition default_param : @MatrixFactorizationParam sample :=
  MatrixFactorizationParam_new (PBool true) (PInt 1) (PStr "diff") (PStr "SGD")
    (PInt (-1)) default_init_param (PInt 100) tt tt PNone PNone (PStr "mse").

(** [{"optimizer": "SGD", "learning_rate": 0.05, "decay": decay}] *)
Definition sgd_with (decay : pyval) : pyval :=
  PDict [("optimizer", PStr "SGD"); ("learning_rate", PFloat 0.05%float);
         ("decay", decay)].

(** ** What the properties speak of *)

Definition is_ok {A} (r : Result A) : bool :=
  match r with Ok _ => true | Raise _ => false end.

(** [v] is negative, [v] is non-negative: the comparisons [v < 0] and
    [v >= 0] hold.  A NaN is neither. *)
Definition negative (v : pyval) : bool :=
  match py_lt v 0 with Ok true => true | _ => false end.

Definition non_negative (v : pyval) : bool :=
  match py_ge v 0 with Ok true => true | _ => false end.

Section Validity.

Context {fml : Federatedml}.

(** The three normalisers accept the fields of [p]. *)
Definition normalizers_accept (p : MatrixFactorizationParam) : bool :=
  is_ok (_parse_early_stop (early_stop p))
  && is_ok (_parse_optimizer (optimizer p))
  && is_ok (_parse_metrics (metrics p)).

(** The argument set of the normalised optimizer of [p]. *)
Definition normalized_kwargs (p : MatrixFactorizationParam) : option items :=
  match _parse_optimizer (optimizer p) with
  | Ok op =>
      match getattr op "kwargs" with
      | Ok (PDict kw) => Some kw
      | _ => None
      end
  | Raise _ => None
  end.

(** The entry [name] of the optimizer arguments, if there is one, is a
    non-negative number. *)
Definition kwarg_valid (name : string) (p : MatrixFactorizationParam) : bool :=
  match normalized_kwargs p with
  | Some kw =>
      match lookup kw name with
      | Some v => isinstance_int_float v && non_negative v
      | None => true
      end
  | None => false
  end.

(** [b] is -1, or an [int] no smaller than the minimum. *)
Definition batch_size_valid (b : pyval) : bool :=
  negb (py_ne b (-1))
  || match b with PInt z => MIN_BATCH_SIZE <=? z | _ => false end.

(** [m] is an [int] and at least 1. *)
Definition max_iter_valid (m : pyval) : bool :=
  match m with PInt z => 1 <=? z | _ => false end.

Definition init_param_valid (ip : MtxFInitParam) : bool :=
  match InitParam_check ip with (None, _) => true | (Some _, _) => false end.

(** The tests of [check] on an argument entry: a number that is not below
    zero (a NaN passes). *)
Definition kwarg_passes (kw : items) (name : string) : bool :=
  match lookup kw name with
  | Some v => isinstance_int_float v && negb (negative v)
  | None => true
  end.

(** Every test of [check] passes on [p]. *)
Definition passes (p : MatrixFactorizationParam) : bool :=
  match normalized_kwargs p with
  | Some kw =>
      normalizers_accept p
      && batch_size_valid (batch_size p)
      && kwarg_passes kw "decay"
      && kwarg_passes kw "learning_rate"
      && init_param_valid (init_param p)
      && max_iter_valid (max_iter p)
  | None => false
  end.

End Validity.

(** *** Persisting and restoring *)



Section RoundTrip.

Context {fml : Federatedml}.

(** The three fields are in the shapes the normalisers produce. *)
Definition canonical (p : MatrixFactorizationParam) : Prop :=
  canonical_early_stop (early_stop p)
  /\ canonical_optimizer (optimizer p)
  /\ canonical_metrics (metrics p).













End RoundTrip.

(** [HeteroMatrixParam(early_stop=..., optimizer=...)], the other arguments
    at their defaults, in the sample framework. *)
Definition hetero_param (early_stop optimizer : pyval)
  : @HeteroMatrixParam sample :=
  HeteroMatrixParam_new (PStr "L2") (PFloat 1e-5%float) (PFloat 1.0%float)
    optimizer (PInt (-1)) (PFloat 0.01%float) default_init_param (PInt 100)
    early_stop tt tt (PInt 1) (PBool true) (PInt 1) PNone.

(** *** Beyond the three fields *)

(** The message of [HeteroMatrixParam.check]. *)
Definition aggregate_iters_msg : string :=
  "matrix_factorization's aggregate_iters {} not supported, should be int type".

Section Frames.

Context {fml : Federatedml}.

(** The fields [check] never assigns. *)
Definition untouched_by_check (p p' : MatrixFactorizationParam) : Prop :=
  secure_aggregate p' = secure_aggregate p
  /\ aggregate_every_n_epoch p' = aggregate_every_n_epoch p
  /\ loss p' = loss p
  /\ batch_size p' = batch_size p
  /\ max_iter p' = max_iter p
  /\ predict_param p' = predict_param p
  /\ cv_param p' = cv_param p
  /\ validation_freqs p' = validation_freqs p.

(** The fields [restore_from_pb] never assigns. *)
Definition untouched_by_restore (self self' : HeteroMatrixParam) : Prop :=
  aggregate_iters self' = aggregate_iters self
  /\ predict_param (super self') = predict_param (super self)
  /\ cv_param (super self') = cv_param (super self)
  /\ validation_freqs (super self') = validation_freqs (super self).

(** The optimizer arguments a record can be restored with: its two names are
    not empty, and its argument text is a JSON object without a member
    ["optimizer"]. *)
Definition restorable (pb : HeteroMFParam) : option items :=
  if negb (pb_early_stop (pb_es pb) =? "")%string
     && negb (pb_optimizer (pb_opt pb) =? "")%string
  then
    match pb_args (pb_opt pb) with
    | Document j =>
        match decode j with
        | PDict d => if dict_mem d "optimizer" then None else Some d
        | _ => None
        end
    | Unparsable => None
    end
  else None.

(** The state [restore_from_pb] builds from a record and the arguments [d]
    its text denotes. *)
Definition restored (pb : HeteroMFParam) (d : items)
    (target : HeteroMatrixParam) : HeteroMatrixParam :=
  {| super :=
       MatrixFactorizationParam_new
         (PBool (pb_secure_aggregate pb))
         (PInt (pb_aggregate_every_n_epoch pb))
         (early_stop_ns (PStr (pb_early_stop (pb_es pb)))
            (PFloat (pb_eps (pb_es pb))))
         (optimizer_ns (PStr (pb_optimizer (pb_opt pb))) d)
         (PInt (pb_batch_size pb))
         (MtxFInitParam_new (PInt (pb_embed_dim pb)) (PStr "random_normal"))
         (PInt (pb_max_iter pb))
         (predict_param (super target))
         (cv_param (super target))
         (validation_freqs (super target))
         (PList (map PStr (pb_metrics pb)))
         (PStr (pb_loss pb));
     aggregate_iters := aggregate_iters target |}.

(** The integers of a record are in the range of its integer fields. *)
Definition in_range (pb : HeteroMFParam) : bool :=
  int_field (pb_aggregate_every_n_epoch pb)
  && int_field (pb_batch_size pb)
  && int_field (pb_max_iter pb)
  && int_field (pb_embed_dim pb).

End Frames.

(** A record as [generate_pb] writes it, with the given method and argument
    text, and an argument text with a repeated member. *)
Definition sample_pb (method : string) (args : text) : HeteroMFParam :=
  {| pb_secure_aggregate := false;
     pb_aggregate_every_n_epoch := 2;
     pb_batch_size := 64;
     pb_max_iter := 30;
     pb_es := {| pb_early_stop := method; pb_eps := 0.01%float |};
     pb_metrics := ["rmse"; "mae"];
     pb_opt := {| pb_optimizer := "Adam"; pb_args := args |};
     pb_loss := "mse";
     pb_embed_dim := 16 |}.

Definition sample_args : text :=
  Document (JObject [("learning_rate", JFloat 0.05%float);
                     ("decay", JInt 0);
                     ("learning_rate", JFloat 0.1%float)]).

(** Induction on a document, with the hypothesis on every element of an array
    and every member of an object. *)
Section json_induction.

Variable P : json -> Prop.
Hypothesis HNull : P JNull.
Hypothesis HBool : forall b, P (JBool b).
Hypothesis HInt : forall z, P (JInt z).
Hypothesis HFloat : forall f, P (JFloat f).
Hypothesis HString : forall s, P (JString s).
Hypothesis HArray : forall l, Forall P l -> P (JArray l).
Hypothesis HObject : forall ms, Forall (fun m => P (snd m)) ms -> P (JObject ms).

Fixpoint json_nested_ind (j : json) : P j :=
  match j with
  | JNull => HNull
  | JBool b => HBool b
  | JInt z => HInt z
  | JFloat f => HFloat f
  | JString s => HString s
  | JArray l =>
      HArray l
        ((fix all (l : list json) : Forall P l :=
            match l with
            | [] => Forall_nil _
            | x :: r => Forall_cons x (json_nested_ind x) (all r)
            end) l)
  | JObject ms =>
      HObject ms
        ((fix all (ms : list (string * json))
            : Forall (fun m => P (snd m)) ms :=
            match ms with
            | [] => Forall_nil _
            | (k, x) :: r => Forall_cons (k, x) (json_nested_ind x) (all r)
            end) ms)
  end.

End json_induction.

(** * Properties *)

(** ** The normalisers *)

Lemma lookup_dict_get (d : items) (k : string) (v dflt : pyval) :
  lookup d k = Some v -> dict_get d k dflt = v.
Proof. unfold dict_get. now intros ->. Qed.

Lemma lookup_dict_get_none (d : items) (k : string) (dflt : pyval) :
  lookup d k = None -> dict_get d k dflt = dflt.
Proof. unfold dict_get. now intros ->. Qed.

Lemma lookup_dict_without (key : string) (d : items) (k : string) :
  lookup (dict_without key d) k
  = if (k =? key)%string then None else lookup d k.
Proof.
  induction d as [|[k' v] r IH]; simpl.
  - now destruct (k =? key)%string.
  - destruct (k' =? key)%string eqn:Ek; simpl.
    + apply String.eqb_eq in Ek. subst k'. rewrite IH.
      rewrite (String.eqb_sym key k). now destruct (k =? key)%string.
    + rewrite IH. destruct (k' =? k)%string eqn:Ek'; [|reflexivity].
      apply String.eqb_eq in Ek'. subst k'. now rewrite Ek.
Qed.

Lemma dict_without_mem (key : string) (d : items) :
  dict_mem (dict_without key d) key = false.
Proof.
  unfold dict_mem. rewrite lookup_dict_without. now rewrite String.eqb_refl.
Qed.

Lemma In_dict_without (key : string) (d : items) (k : string) (v : pyval) :
  In (k, v) (dict_without key d) <-> In (k, v) d /\ k <> key.
Proof.
  unfold dict_without. rewrite filter_In. simpl.
  rewrite negb_true_iff, String.eqb_neq. tauto.
Qed.

(** C3, as the code has it.  A string [s] normalises to method [s] with the
    default epsilon; a mapping whose method entry is truthy and that has an
    epsilon normalises to that method and epsilon (so
    [{"early_stop": "abs", "eps": 0.01}] gives ["abs"], 0.01); a mapping
    without the method key, or with a falsy value under it, and every input
    that is neither string nor mapping, end in an input error. *)
Theorem parse_early_stop_cases :
  (forall s, _parse_early_stop (PStr s) = Ok (early_stop_ns (PStr s) default_eps))
  /\ (forall d m e,
         lookup d "early_stop" = Some m -> truthy m = true ->
         lookup d "eps" = Some e ->
         _parse_early_stop (PDict d) = Ok (early_stop_ns m e))
  /\ _parse_early_stop
       (PDict [("early_stop", PStr "abs"); ("eps", PFloat 0.01%float)])
     = Ok (early_stop_ns (PStr "abs") (PFloat 0.01%float))
  /\ (forall d, lookup d "early_stop" = None ->
                raises_ValueError (_parse_early_stop (PDict d)))
  /\ (forall d m, lookup d "early_stop" = Some m -> truthy m = false ->
                  raises_ValueError (_parse_early_stop (PDict d)))
  /\ (forall v, (forall s, v <> PStr s) -> (forall d, v <> PDict d) ->
                raises_ValueError (_parse_early_stop v)).
Proof.
  repeat split.
  - intros d m e Hm Ht He. unfold _parse_early_stop.
    rewrite (lookup_dict_get _ _ _ _ Hm), (lookup_dict_get _ _ _ _ He).
    now rewrite Ht.
  - intros d Hm. unfold _parse_early_stop.
    rewrite (lookup_dict_get_none _ _ _ Hm). simpl. now eexists; eexists.
  - intros d m Hm Ht. unfold _parse_early_stop.
    rewrite (lookup_dict_get _ _ _ _ Hm), Ht. simpl. now eexists; eexists.
  - intros v Hs Hd. destruct v; simpl; try (now eexists; eexists).
    + now elim (Hs s).
    + now elim (Hd d).
Qed.

Lemma parse_early_stop_cases_witness :
  _parse_early_stop (PDict [("eps", PFloat 0.5%float); ("early_stop", PStr "diff")])
  = Ok (early_stop_ns (PStr "diff") (PFloat 0.5%float))
  /\ raises_ValueError (_parse_early_stop (PDict [("eps", PFloat 0.5%float)]))
  /\ raises_ValueError (_parse_early_stop (PDict [("early_stop", PInt 0)]))
  /\ raises_ValueError (_parse_early_stop (PInt 3)).
Proof.
  destruct parse_early_stop_cases as (_ & Hd & _ & Hnone & Hfalsy & Hother).
  split; [|split; [|split]].
  - apply Hd; reflexivity.
  - apply Hnone; reflexivity.
  - apply (Hfalsy _ (PInt 0)); reflexivity.
  - apply Hother; intros ?; discriminate.
Defined.

(** C3 as stated fails: this mapping has the method key and an epsilon, and
    the normaliser raises, because the method is the empty string. *)
Lemma parse_early_stop_empty_method :
  let d := [("early_stop", PStr ""); ("eps", PFloat 0.01%float)] in
  lookup d "early_stop" = Some (PStr "")
  /\ lookup d "eps" = Some (PFloat 0.01%float)
  /\ _parse_early_stop (PDict d)
     = Raise (ValueError "early_stop config: {} invalid" [PDict d]).
Proof. repeat split. Qed.

(** C4, as the code has it.  A string normalises to that name with no
    arguments; a mapping whose name entry is truthy normalises to that name
    with the mapping's other entries, in their order, as arguments; a mapping
    without a name, or with a falsy one, and every input of another type, end
    in an input error. *)
Theorem parse_optimizer_cases :
  (forall s, _parse_optimizer (PStr s) = Ok (optimizer_ns (PStr s) []))
  /\ (forall d o,
         lookup d "optimizer" = Some o -> truthy o = true ->
         exists kw,
           _parse_optimizer (PDict d) = Ok (optimizer_ns o kw)
           /\ kw = filter (fun kv => negb (fst kv =? "optimizer")%string) d
           /\ (forall k v, In (k, v) kw <-> In (k, v) d /\ k <> "optimizer")
           /\ (forall k, k <> "optimizer" -> lookup kw k = lookup d k)
           /\ lookup kw "optimizer" = None)
  /\ (forall d, lookup d "optimizer" = None ->
                raises_ValueError (_parse_optimizer (PDict d)))
  /\ (forall d o, lookup d "optimizer" = Some o -> truthy o = false ->
                  raises_ValueError (_parse_optimizer (PDict d)))
  /\ (forall v, (forall s, v <> PStr s) -> (forall d, v <> PDict d) ->
                raises_ValueError (_parse_optimizer v)).
Proof.
  split; [reflexivity|]. split; [|split; [|split]].
  - intros d o Ho Ht. exists (dict_without "optimizer" d).
    split; [|split; [reflexivity|split; [|split]]].
    + unfold _parse_optimizer.
      rewrite (lookup_dict_get _ _ _ _ Ho). now rewrite Ht.
    + intros k v. apply In_dict_without.
    + intros k Hk. rewrite lookup_dict_without.
      apply String.eqb_neq in Hk. now rewrite Hk.
    + rewrite lookup_dict_without. reflexivity.
  - intros d Ho. unfold _parse_optimizer.
    rewrite (lookup_dict_get_none _ _ _ Ho). simpl. now eexists; eexists.
  - intros d o Ho Ht. unfold _parse_optimizer.
    rewrite (lookup_dict_get _ _ _ _ Ho), Ht. simpl. now eexists; eexists.
  - intros v Hs Hd. destruct v; simpl; try (now eexists; eexists).
    + now elim (Hs s).
    + now elim (Hd d).
Qed.

Lemma parse_optimizer_cases_witness :
  _parse_optimizer
    (PDict [("learning_rate", PFloat 0.05%float); ("optimizer", PStr "SGD");
            ("decay", PInt 1)])
  = Ok (optimizer_ns (PStr "SGD")
          [("learning_rate", PFloat 0.05%float); ("decay", PInt 1)])
  /\ raises_ValueError (_parse_optimizer (PDict [("decay", PInt 1)]))
  /\ raises_ValueError (_parse_optimizer (PList [])).
Proof.
  destruct parse_optimizer_cases as (_ & Hd & Hnone & _ & Hother).
  split; [|split].
  - destruct (Hd [("learning_rate", PFloat 0.05%float); ("optimizer", PStr "SGD");
                  ("decay", PInt 1)] (PStr "SGD") eq_refl eq_refl)
      as (kw & Hr & -> & _).
    exact Hr.
  - apply Hnone; reflexivity.
  - apply Hother; intros ?; discriminate.
Defined.

(** C4 as stated fails: this mapping contains the optimizer-name key, and the
    normaliser raises instead of returning the name and the other entries. *)
Lemma parse_optimizer_empty_name :
  let d := [("optimizer", PStr ""); ("learning_rate", PFloat 0.05%float)] in
  lookup d "optimizer" = Some (PStr "")
  /\ _parse_optimizer (PDict d)
     = Raise (ValueError "optimizer config: {} invalid" [PDict d]).
Proof. repeat split. Qed.

(** C5, as the code has it.  Every falsy input ([None], the empty string, 0,
    [False], an empty list or mapping) gives the empty list; a non-empty
    string [s] gives [[s]]; a list gives the list; a truthy input of any
    other type ends in an input error. *)
Theorem parse_metrics_cases :
  _parse_metrics PNone = Ok (PList [])
  /\ (forall v, truthy v = false -> _parse_metrics v = Ok (PList []))
  /\ (forall s, s <> "" -> _parse_metrics (PStr s) = Ok (PList [PStr s]))
  /\ (forall l, _parse_metrics (PList l) = Ok (PList l))
  /\ (forall v, truthy v = true ->
                (forall s, v <> PStr s) -> (forall l, v <> PList l) ->
                raises_ValueError (_parse_metrics v)).
Proof.
  split; [reflexivity|]. split; [|split; [|split]].
  - intros v Hv. unfold _parse_metrics. now rewrite Hv.
  - intros s Hs. unfold _parse_metrics. simpl.
    apply String.eqb_neq in Hs. now rewrite Hs.
  - intros [|x l]; reflexivity.
  - intros v Hv Hs Hl. unfold _parse_metrics. rewrite Hv. simpl.
    destruct v; try (now eexists; eexists).
    + now elim (Hs s).
    + now elim (Hl l).
Qed.

Lemma parse_metrics_cases_witness :
  _parse_metrics (PDict []) = Ok (PList [])
  /\ _parse_metrics (PStr "rmse") = Ok (PList [PStr "rmse"])
  /\ raises_ValueError (_parse_metrics (PInt 7)).
Proof.
  destruct parse_metrics_cases as (_ & Hf & Hs & _ & Ho).
  split; [|split].
  - apply Hf; reflexivity.
  - apply Hs; discriminate.
  - apply Ho; [reflexivity| |]; intros ?; discriminate.
Defined.

(** C5 as stated fails twice: the empty string does not give a one-element
    list, and a falsy value of another type (the integer 0, an empty mapping)
    is accepted instead of rejected. *)
Lemma parse_metrics_falsy_inputs :
  _parse_metrics (PStr "") = Ok (PList [])
  /\ _parse_metrics (PStr "") <> Ok (PList [PStr ""])
  /\ _parse_metrics (PInt 0) = Ok (PList [])
  /\ _parse_metrics (PDict []) = Ok (PList []).
Proof. repeat split. discriminate. Qed.

(** ** [check] *)

Section CheckProperties.

Context {fml : Federatedml}.

Lemma parse_early_stop_shape (v es : pyval) :
  _parse_early_stop v = Ok es -> canonical_early_stop es.
Proof.
  destruct v; simpl; try discriminate.
  - intros [= <-]. now eexists; eexists.
  - destruct (truthy _); simpl; [|discriminate].
    intros [= <-]. now eexists; eexists.
Qed.

Lemma parse_optimizer_shape (v op : pyval) :
  _parse_optimizer v = Ok op -> canonical_optimizer op.
Proof.
  destruct v; simpl; try discriminate.
  - intros [= <-]. exists (PStr s), []. now split.
  - destruct (truthy _); simpl; [|discriminate].
    intros [= <-]. eexists; eexists. split; [reflexivity|].
    apply dict_without_mem.
Qed.

Lemma parse_metrics_shape (v ms : pyval) :
  _parse_metrics v = Ok ms -> canonical_metrics ms.
Proof.
  unfold _parse_metrics. destruct (truthy v); simpl.
  - destruct v; try discriminate; intros [= <-]; now eexists.
  - intros [= <-]. now eexists.
Qed.

Lemma parse_early_stop_error (v : pyval) (e : exn) :
  _parse_early_stop v = Raise e -> is_ValueError e = true.
Proof.
  destruct v; simpl; try (now intros [= <-]).
  destruct (truthy _); simpl; [discriminate|now intros [= <-]].
Qed.

Lemma parse_optimizer_error (v : pyval) (e : exn) :
  _parse_optimizer v = Raise e -> is_ValueError e = true.
Proof.
  destruct v; simpl; try (now intros [= <-]).
  destruct (truthy _); simpl; [discriminate|now intros [= <-]].
Qed.

Lemma parse_metrics_error (v : pyval) (e : exn) :
  _parse_metrics v = Raise e -> is_ValueError e = true.
Proof.
  unfold _parse_metrics. destruct (truthy v); simpl; [|discriminate].
  destruct v; try discriminate; now intros [= <-].
Qed.

(** The blocks of [check], run. *)
Lemma normalize_run (p : MatrixFactorizationParam) :
  normalize p
  = match _parse_early_stop (early_stop p) with
    | Raise e => (Raise e, p)
    | Ok es =>
        match _parse_optimizer (optimizer p) with
        | Raise e => (Raise e, set_early_stop es p)
        | Ok op =>
            match _parse_metrics (metrics p) with
            | Raise e => (Raise e, set_optimizer op (set_early_stop es p))
            | Ok ms =>
                (Ok tt, set_metrics ms (set_optimizer op (set_early_stop es p)))
            end
        end
    end.
Proof.
  unfold normalize, bind, attr, eval, assign.
  destruct (_parse_early_stop (early_stop p)); [cbn|reflexivity].
  destruct (_parse_optimizer (optimizer p)); [cbn|reflexivity].
  destruct (_parse_metrics (metrics p)); reflexivity.
Qed.

Lemma check_batch_size_run (p : MatrixFactorizationParam) :
  check_batch_size p
  = if batch_size_valid (batch_size p) then (Ok tt, p)
    else (Raise (ValueError batch_size_msg [batch_size p]), p).
Proof.
  unfold check_batch_size, batch_size_valid, bind, attr, when, py_ne, py_lt.
  destruct (batch_size p) as [|b|z|f|s|l|d|a|t]; try reflexivity.
  - cbn. destruct b; reflexivity.
  - cbn. destruct (z ?= -1) eqn:E1; cbn; try reflexivity;
      destruct (Z.compare_spec z MIN_BATCH_SIZE);
      destruct (Z.leb_spec MIN_BATCH_SIZE z); try reflexivity; lia.
  - cbn. destruct (float_compare_int f (-1)) as [|[]]; reflexivity.
Qed.

Lemma check_kwarg_run (name msg : string) (p : MatrixFactorizationParam)
    (o : pyval) (kw : items) :
  optimizer p = optimizer_ns o kw ->
  check_kwarg name msg p
  = if kwarg_passes kw name then (Ok tt, p)
    else (Raise (ValueError msg [dict_get kw name PNone]), p).
Proof.
  intros Hop.
  unfold check_kwarg, kwarg_passes, bind, attr, eval, when, dict_get.
  rewrite Hop. cbn. unfold dict_mem.
  destruct (lookup kw name) as [v|]; [|reflexivity].
  unfold negative, py_lt.
  destruct v as [|b|z|f|s|l|d|a|t]; cbn; try reflexivity.
  - destruct (Z.b2z b ?= 0); reflexivity.
  - destruct (z ?= 0); reflexivity.
  - destruct (float_compare_int f 0) as [|[]]; reflexivity.
Qed.

Lemma check_init_param_run (p : MatrixFactorizationParam) :
  check_init_param p
  = match InitParam_check (init_param p) with
    | (None, ip') => (Ok tt, set_init_param ip' p)
    | (Some (msg, args), ip') =>
        (Raise (ValueError msg args), set_init_param ip' p)
    end.
Proof.
  unfold check_init_param, bind, attr.
  destruct (InitParam_check (init_param p)) as [[[msg args]|] ip']; reflexivity.
Qed.

Lemma check_max_iter_run (p : MatrixFactorizationParam) :
  check_max_iter p
  = match max_iter p with
    | PInt z =>
        if 1 <=? z then (Ok tt, p)
        else (Raise (ValueError max_iter_value_msg []), p)
    | m => (Raise (ValueError max_iter_type_msg [m]), p)
    end.
Proof.
  unfold check_max_iter, bind, attr, eval, when, py_le.
  destruct (max_iter p) as [|b|z|f|s|l|d|a|t]; try reflexivity.
  cbn. destruct (Z.compare_spec z 0); destruct (Z.leb_spec 1 z);
    try reflexivity; lia.
Qed.

(** [check] on a configuration the normalisers accept, test by test; [p1]
    is the state after the three assignments of lines 108-110. *)
Lemma check_run (p : MatrixFactorizationParam) (es o : pyval) (kw : items)
    (ms : pyval) :
  _parse_early_stop (early_stop p) = Ok es ->
  _parse_optimizer (optimizer p) = Ok (optimizer_ns o kw) ->
  _parse_metrics (metrics p) = Ok ms ->
  let p1 := set_metrics ms (set_optimizer (optimizer_ns o kw) (set_early_stop es p)) in
  check p
  = if negb (batch_size_valid (batch_size p))
    then (Raise (ValueError batch_size_msg [batch_size p]), p1)
    else if negb (kwarg_passes kw "decay")
    then (Raise (ValueError decay_msg [dict_get kw "decay" PNone]), p1)
    else if negb (kwarg_passes kw "learning_rate")
    then (Raise (ValueError learning_rate_msg
                   [dict_get kw "learning_rate" PNone]), p1)
    else
      match InitParam_check (init_param p) with
      | (Some (msg, args), ip') =>
          (Raise (ValueError msg args), set_init_param ip' p1)
      | (None, ip') =>
          match max_iter p with
          | PInt z =>
              if 1 <=? z then (Ok (PBool true), set_init_param ip' p1)
              else (Raise (ValueError max_iter_value_msg []),
                    set_init_param ip' p1)
          | m => (Raise (ValueError max_iter_type_msg [m]),
                  set_init_param ip' p1)
          end
      end.
Proof.
  intros Hes Hop Hms p1.
  unfold check, bind at 1. rewrite normalize_run, Hes, Hop, Hms. fold p1.
  unfold bind at 1. rewrite check_batch_size_run.
  change (batch_size p1) with (batch_size p).
  destruct (batch_size_valid (batch_size p)); [cbn [negb]|reflexivity].
  unfold bind at 1. rewrite (check_kwarg_run _ _ p1 o kw eq_refl).
  destruct (kwarg_passes kw "decay"); [cbn [negb]|reflexivity].
  unfold bind at 1. rewrite (check_kwarg_run _ _ p1 o kw eq_refl).
  destruct (kwarg_passes kw "learning_rate"); [cbn [negb]|reflexivity].
  unfold bind at 1. rewrite check_init_param_run.
  change (init_param p1) with (init_param p).
  destruct (InitParam_check (init_param p)) as [[[msg args]|] ip'];
    [reflexivity|].
  unfold bind at 1. rewrite check_max_iter_run.
  change (max_iter (set_init_param ip' p1)) with (max_iter p).
  destruct (max_iter p) as [|b|z|f|s|l|d|a|t]; try reflexivity.
  destruct (1 <=? z); reflexivity.
Qed.

Lemma normalized_kwargs_of (p : MatrixFactorizationParam) (o : pyval)
    (kw : items) :
  _parse_optimizer (optimizer p) = Ok (optimizer_ns o kw) ->
  normalized_kwargs p = Some kw.
Proof. unfold normalized_kwargs. now intros ->. Qed.

Lemma normalizers_accept_inv (p : MatrixFactorizationParam) :
  normalizers_accept p = true ->
  exists es o kw ms,
    _parse_early_stop (early_stop p) = Ok es
    /\ _parse_optimizer (optimizer p) = Ok (optimizer_ns o kw)
    /\ _parse_metrics (metrics p) = Ok ms.
Proof.
  unfold normalizers_accept. rewrite !andb_true_iff. intros [[H1 H2] H3].
  destruct (_parse_early_stop (early_stop p)) as [es|] eqn:Hes; [|discriminate].
  destruct (_parse_optimizer (optimizer p)) as [op|] eqn:Hop; [|discriminate].
  destruct (_parse_metrics (metrics p)) as [ms|] eqn:Hms; [|discriminate].
  destruct (parse_optimizer_shape _ _ Hop) as (o & kw & -> & _).
  now exists es, o, kw, ms.
Qed.

(** When every test passes, [check] returns [True], in the normalised state
    (with whatever [InitParam.check] did to [init_param]). *)
Lemma check_passes (p : MatrixFactorizationParam) :
  passes p = true ->
  exists es op ms ip',
    _parse_early_stop (early_stop p) = Ok es
    /\ _parse_optimizer (optimizer p) = Ok op
    /\ _parse_metrics (metrics p) = Ok ms
    /\ check p
       = (Ok (PBool true),
          set_init_param ip' (set_metrics ms (set_optimizer op (set_early_stop es p)))).
Proof.
  unfold passes.
  destruct (normalized_kwargs p) as [kw|] eqn:Hkw; [|discriminate].
  rewrite !andb_true_iff. intros [[[[[Hn Hb] Hd] Hl] Hi] Hm].
  destruct (normalizers_accept_inv _ Hn) as (es & o & kw' & ms & Hes & Hop & Hms).
  rewrite (normalized_kwargs_of _ _ _ Hop) in Hkw. injection Hkw as ->.
  unfold init_param_valid in Hi.
  destruct (InitParam_check (init_param p)) as [[x|] ip'] eqn:Hip; [discriminate|].
  exists es, (optimizer_ns o kw), ms, ip'. repeat (split; [assumption|]).
  rewrite (check_run _ _ _ _ _ Hes Hop Hms), Hb, Hd, Hl, Hip. cbn [negb].
  unfold max_iter_valid in Hm.
  destruct (max_iter p); try discriminate. now rewrite Hm.
Qed.

(** When some test does not pass, [check] raises, and what it raises is an
    input error. *)
Lemma check_fails (p : MatrixFactorizationParam) :
  passes p = false ->
  exists e p', check p = (Raise e, p') /\ is_ValueError e = true.
Proof.
  intros Hp.
  destruct (_parse_early_stop (early_stop p)) as [es|e] eqn:Hes.
  2:{ exists e, p. split; [|now apply parse_early_stop_error in Hes].
      unfold check, bind. now rewrite normalize_run, Hes. }
  destruct (_parse_optimizer (optimizer p)) as [op|e] eqn:Hop.
  2:{ exists e, (set_early_stop es p).
      split; [|now apply parse_optimizer_error in Hop].
      unfold check, bind. now rewrite normalize_run, Hes, Hop. }
  destruct (_parse_metrics (metrics p)) as [ms|e] eqn:Hms.
  2:{ exists e, (set_optimizer op (set_early_stop es p)).
      split; [|now apply parse_metrics_error in Hms].
      unfold check, bind. now rewrite normalize_run, Hes, Hop, Hms. }
  destruct (parse_optimizer_shape _ _ Hop) as (o & kw & -> & _).
  rewrite (check_run _ _ _ _ _ Hes Hop Hms).
  unfold passes, normalizers_accept, init_param_valid, max_iter_valid in Hp.
  rewrite (normalized_kwargs_of _ _ _ Hop), Hes, Hop, Hms in Hp. cbn in Hp.
  destruct (batch_size_valid (batch_size p)); cbn [negb];
    [|now eexists; eexists].
  destruct (kwarg_passes kw "decay"); cbn [negb]; [|now eexists; eexists].
  destruct (kwarg_passes kw "learning_rate"); cbn [negb];
    [|now eexists; eexists].
  destruct (InitParam_check (init_param p)) as [[[msg args]|] ip'];
    [now eexists; eexists|].
  cbn in Hp.
  destruct (max_iter p) as [|b|z|f|s|l|d|a|t]; try (now eexists; eexists).
  rewrite Hp. now eexists; eexists.
Qed.

Lemma check_ok_passes (p p' : MatrixFactorizationParam) (r : pyval) :
  check p = (Ok r, p') -> passes p = true.
Proof.
  intros H. destruct (passes p) eqn:Hp; [reflexivity|].
  destruct (check_fails _ Hp) as (e & q & Hq & _). congruence.
Qed.

(** Whatever [check] ends in, once the normalisers have accepted, the three
    fields hold their normal forms. *)
Lemma check_keeps (p p' : MatrixFactorizationParam) (r : Result pyval)
    (es op ms : pyval) :
  _parse_early_stop (early_stop p) = Ok es ->
  _parse_optimizer (optimizer p) = Ok op ->
  _parse_metrics (metrics p) = Ok ms ->
  check p = (r, p') ->
  early_stop p' = es /\ optimizer p' = op /\ metrics p' = ms.
Proof.
  intros Hes Hop Hms.
  destruct (parse_optimizer_shape _ _ Hop) as (o & kw & -> & _).
  rewrite (check_run _ _ _ _ _ Hes Hop Hms).
  destruct (negb (batch_size_valid (batch_size p))); [now intros [= _ <-]|].
  destruct (negb (kwarg_passes kw "decay")); [now intros [= _ <-]|].
  destruct (negb (kwarg_passes kw "learning_rate")); [now intros [= _ <-]|].
  destruct (InitParam_check (init_param p)) as [[[msg args]|] ip'];
    [now intros [= _ <-]|].
  destruct (max_iter p) as [|b|z|f|s|l|d|a|t]; try (now intros [= _ <-]).
  destruct (1 <=? z); now intros [= _ <-].
Qed.

Lemma non_negative_not_negative (v : pyval) :
  non_negative v = true -> negative v = false.
Proof.
  unfold non_negative, negative, py_ge, py_lt.
  destruct (compare_int v 0) as [[|[]]|]; (discriminate || reflexivity).
Qed.

Lemma kwarg_valid_passes (name : string) (p : MatrixFactorizationParam)
    (kw : items) :
  normalized_kwargs p = Some kw ->
  kwarg_valid name p = true -> kwarg_passes kw name = true.
Proof.
  unfold kwarg_valid, kwarg_passes. intros ->.
  destruct (lookup kw name) as [v|]; [|reflexivity].
  rewrite !andb_true_iff. intros [Hn Hv]. split; [assumption|].
  now rewrite (non_negative_not_negative _ Hv).
Qed.

(** A configuration whose every field is valid passes every test. *)
Lemma valid_passes (p : MatrixFactorizationParam) :
  normalizers_accept p = true ->
  batch_size_valid (batch_size p) = true ->
  kwarg_valid "decay" p = true ->
  kwarg_valid "learning_rate" p = true ->
  init_param_valid (init_param p) = true ->
  max_iter_valid (max_iter p) = true ->
  passes p = true.
Proof.
  intros Hn Hb Hd Hl Hi Hm. unfold passes.
  destruct (normalizers_accept_inv _ Hn) as (es & o & kw & ms & _ & Hop & _).
  rewrite (normalized_kwargs_of _ _ _ Hop).
  rewrite Hn, Hb, Hi, Hm.
  rewrite (kwarg_valid_passes _ _ _ (normalized_kwargs_of _ _ _ Hop) Hd).
  now rewrite (kwarg_valid_passes _ _ _ (normalized_kwargs_of _ _ _ Hop) Hl).
Qed.

Lemma valid_check (p : MatrixFactorizationParam) :
  passes p = true -> exists p', check p = (Ok (PBool true), p').
Proof.
  intros Hp. destruct (check_passes _ Hp) as (es & op & ms & ip' & _ & _ & _ & H).
  eexists. exact H.
Qed.

Lemma passes_batch_size (p : MatrixFactorizationParam) :
  passes p = true -> batch_size_valid (batch_size p) = true.
Proof.
  unfold passes. destruct (normalized_kwargs p); [|discriminate].
  rewrite !andb_true_iff. tauto.
Qed.

Lemma passes_max_iter (p : MatrixFactorizationParam) :
  passes p = true -> max_iter_valid (max_iter p) = true.
Proof.
  unfold passes. destruct (normalized_kwargs p); [|discriminate].
  rewrite !andb_true_iff. tauto.
Qed.

Lemma passes_kwarg (p : MatrixFactorizationParam) (kw : items) :
  passes p = true -> normalized_kwargs p = Some kw ->
  kwarg_passes kw "decay" = true /\ kwarg_passes kw "learning_rate" = true.
Proof.
  unfold passes. intros H Hk. rewrite Hk in H. revert H.
  rewrite !andb_true_iff. tauto.
Qed.

Lemma not_passes_fails (p : MatrixFactorizationParam) :
  passes p <> true ->
  exists e p', check p = (Raise e, p') /\ is_ValueError e = true.
Proof.
  intros H. apply check_fails. now destruct (passes p).
Qed.

(** C6.  A batch size [b] with [b != -1] and [b < MIN_BATCH_SIZE] makes
    [check] fail with an input error; with [b == -1], or [b] an [int] no
    smaller than [MIN_BATCH_SIZE], and the other fields valid, [check]
    succeeds. *)
Theorem check_batch_size_rule :
  (forall p : MatrixFactorizationParam,
      py_ne (batch_size p) (-1) = true ->
      py_lt (batch_size p) MIN_BATCH_SIZE = Ok true ->
      exists e p', check p = (Raise e, p') /\ is_ValueError e = true)
  /\ (forall p : MatrixFactorizationParam,
         py_ne (batch_size p) (-1) = false
         \/ (exists z, batch_size p = PInt z /\ MIN_BATCH_SIZE <= z) ->
         normalizers_accept p = true ->
         kwarg_valid "decay" p = true ->
         kwarg_valid "learning_rate" p = true ->
         init_param_valid (init_param p) = true ->
         max_iter_valid (max_iter p) = true ->
         exists p', check p = (Ok (PBool true), p')).
Proof.
  split.
  - intros p Hne Hlt. apply not_passes_fails. intros Hp.
    apply passes_batch_size in Hp. unfold batch_size_valid in Hp.
    rewrite Hne in Hp. cbn in Hp.
    destruct (batch_size p) as [|b|z|f|s|l|d|a|t]; try discriminate.
    unfold py_lt in Hlt. cbn in Hlt. apply Z.leb_le in Hp.
    destruct (Z.compare_spec z MIN_BATCH_SIZE); try discriminate. lia.
  - intros p Hb Hn Hd Hl Hi Hm. apply valid_check, valid_passes; try assumption.
    unfold batch_size_valid. destruct Hb as [-> | (z & -> & Hz)]; [reflexivity|].
    apply Z.leb_le in Hz. rewrite Hz. apply orb_true_r.
Qed.

(** C7.  An entry ['decay'] or ['learning_rate'] of the normalised optimizer
    arguments that is not a number, or is negative, makes [check] fail with an
    input error; when every such entry is a non-negative number and the other
    fields are valid, [check] succeeds. *)
Theorem check_optimizer_kwargs_rule :
  (forall (p : MatrixFactorizationParam) kw name v,
      name = "decay" \/ name = "learning_rate" ->
      normalized_kwargs p = Some kw ->
      lookup kw name = Some v ->
      isinstance_int_float v = false \/ negative v = true ->
      exists e p', check p = (Raise e, p') /\ is_ValueError e = true)
  /\ (forall (p : MatrixFactorizationParam) kw,
         normalized_kwargs p = Some kw ->
         (forall name v,
             name = "decay" \/ name = "learning_rate" ->
             lookup kw name = Some v ->
             isinstance_int_float v = true /\ non_negative v = true) ->
         normalizers_accept p = true ->
         batch_size_valid (batch_size p) = true ->
         init_param_valid (init_param p) = true ->
         max_iter_valid (max_iter p) = true ->
         exists p', check p = (Ok (PBool true), p')).
Proof.
  split.
  - intros p kw name v Hname Hkw Hv Hbad. apply not_passes_fails. intros Hp.
    destruct (passes_kwarg _ _ Hp Hkw) as [Hd Hl].
    assert (Hk : kwarg_passes kw name = true) by (destruct Hname; now subst).
    unfold kwarg_passes in Hk. rewrite Hv in Hk.
    apply andb_true_iff in Hk. destruct Hk as [Hnum Hneg].
    destruct Hbad as [Hb | Hb]; [congruence|].
    rewrite Hb in Hneg. discriminate.
  - intros p kw Hkw Hall Hn Hb Hi Hm.
    assert (Hk : forall name, name = "decay" \/ name = "learning_rate" ->
                              kwarg_valid name p = true).
    { intros name Hname. unfold kwarg_valid. rewrite Hkw.
      destruct (lookup kw name) as [v|] eqn:Hv; [|reflexivity].
      destruct (Hall _ _ Hname Hv) as [-> ->]. reflexivity. }
    apply valid_check, valid_passes; try assumption; apply Hk; auto.
Qed.

(** C8.  A [max_iter] that is not an [int], or is [<= 0] (0 in particular),
    makes [check] fail with an input error; an [int] [max_iter >= 1], the
    other fields valid, makes it succeed. *)
Theorem check_max_iter_rule :
  (forall p : MatrixFactorizationParam,
      type_name (max_iter p) <> "int" \/ py_le (max_iter p) 0 = Ok true ->
      exists e p', check p = (Raise e, p') /\ is_ValueError e = true)
  /\ (forall p : MatrixFactorizationParam,
         max_iter p = PInt 0 ->
         exists e p', check p = (Raise e, p') /\ is_ValueError e = true)
  /\ (forall (p : MatrixFactorizationParam) z,
         max_iter p = PInt z -> 1 <= z ->
         normalizers_accept p = true ->
         batch_size_valid (batch_size p) = true ->
         kwarg_valid "decay" p = true ->
         kwarg_valid "learning_rate" p = true ->
         init_param_valid (init_param p) = true ->
         exists p', check p = (Ok (PBool true), p')).
Proof.
  assert (Hbad : forall p : MatrixFactorizationParam,
             type_name (max_iter p) <> "int" \/ py_le (max_iter p) 0 = Ok true ->
             exists e p', check p = (Raise e, p') /\ is_ValueError e = true).
  { intros p Hm. apply not_passes_fails. intros Hp.
    apply passes_max_iter in Hp. unfold max_iter_valid in Hp.
    destruct (max_iter p) as [|b|z|f|s|l|d|a|t]; try discriminate.
    apply Z.leb_le in Hp. destruct Hm as [Hm | Hm]; [now apply Hm|].
    unfold py_le in Hm. cbn in Hm.
    destruct (Z.compare_spec z 0); try discriminate; lia. }
  split; [exact Hbad|]. split.
  - intros p Hm. apply Hbad. right. now rewrite Hm.
  - intros p z Hm Hz Hn Hb Hd Hl Hi.
    apply valid_check, valid_passes; try assumption.
    rewrite Hm. now apply Z.leb_le.
Qed.

(** C9.  When [check] raises after the three normalisers have accepted their
    fields, the state it leaves holds the normal forms of early-stop,
    optimizer and metrics: the three assignments are not undone. *)
Theorem check_failure_keeps_normal_forms
    (p p' : MatrixFactorizationParam) (e : exn) :
  normalizers_accept p = true ->
  check p = (Raise e, p') ->
  exists es op ms,
    _parse_early_stop (early_stop p) = Ok es
    /\ _parse_optimizer (optimizer p) = Ok op
    /\ _parse_metrics (metrics p) = Ok ms
    /\ early_stop p' = es /\ optimizer p' = op /\ metrics p' = ms
    /\ canonical_early_stop es /\ canonical_optimizer op
    /\ canonical_metrics ms.
Proof.
  intros Hn Hc.
  destruct (normalizers_accept_inv _ Hn) as (es & o & kw & ms & Hes & Hop & Hms).
  destruct (check_keeps _ _ _ _ _ _ Hes Hop Hms Hc) as (H1 & H2 & H3).
  exists es, (optimizer_ns o kw), ms.
  repeat (split; [assumption|]).
  split; [exact (parse_early_stop_shape _ _ Hes)|].
  split; [exact (parse_optimizer_shape _ _ Hop)|].
  exact (parse_metrics_shape _ _ Hms).
Qed.

(** C2, on the code: a second [check] never succeeds.  After a successful
    [check] the early-stop field holds a [SimpleNamespace], which
    [_parse_early_stop] takes for neither a string nor a mapping. *)
Theorem check_twice_raises (p p' : MatrixFactorizationParam) (r : pyval) :
  check p = (Ok r, p') ->
  check p'
  = (Raise (ValueError "invalid type for early_stop: {}"
              [PStr "SimpleNamespace"]), p').
Proof.
  intros Hc. pose proof (check_ok_passes _ _ _ Hc) as Hp.
  destruct (check_passes _ Hp) as (es & op & ms & ip' & Hes & _ & _ & Hc').
  rewrite Hc in Hc'. injection Hc' as _ ->.
  destruct (parse_early_stop_shape _ _ Hes) as (m & x & ->).
  unfold check, bind. rewrite normalize_run. reflexivity.
Qed.

End CheckProperties.

(** *** The rules at work on [MatrixFactorizationParam()] *)

Lemma check_batch_size_rule_witness :
  (exists e p',
      check (set_batch_size (PInt 5) default_param) = (Raise e, p')
      /\ is_ValueError e = true)
  /\ (exists p',
         check (set_batch_size (PInt 10) default_param) = (Ok (PBool true), p')).
Proof.
  destruct (@check_batch_size_rule sample) as [Hbad Hok]. split.
  - apply Hbad; reflexivity.
  - apply Hok; try reflexivity.
    right. exists 10. split; [reflexivity|]. cbn. lia.
Defined.

Lemma check_optimizer_kwargs_rule_witness :
  (exists e p',
      check (set_optimizer (sgd_with (PInt (-1))) default_param) = (Raise e, p')
      /\ is_ValueError e = true)
  /\ (exists p',
         check (set_optimizer (sgd_with (PFloat 0.5%float)) default_param)
         = (Ok (PBool true), p')).
Proof.
  destruct (@check_optimizer_kwargs_rule sample) as [Hbad Hok]. split.
  - apply (Hbad _ [("learning_rate", PFloat 0.05%float); ("decay", PInt (-1))]
             "decay" (PInt (-1))); try reflexivity.
    + now left.
    + now right.
  - apply (Hok _ [("learning_rate", PFloat 0.05%float);
                  ("decay", PFloat 0.5%float)]); try reflexivity.
    intros name v [-> | ->] H; cbn in H; injection H as <-; split; reflexivity.
Defined.

Lemma check_max_iter_rule_witness :
  (exists e p',
      check (set_max_iter (PFloat 2.5%float) default_param) = (Raise e, p')
      /\ is_ValueError e = true)
  /\ (exists e p',
         check (set_max_iter (PInt 0) default_param) = (Raise e, p')
         /\ is_ValueError e = true)
  /\ (exists p',
         check (set_max_iter (PInt 1) default_param) = (Ok (PBool true), p')).
Proof.
  destruct (@check_max_iter_rule sample) as (Hbad & Hzero & Hok).
  split; [|split].
  - apply Hbad. left. discriminate.
  - apply Hzero. reflexivity.
  - apply (Hok _ 1); reflexivity.
Defined.

Lemma check_failure_keeps_normal_forms_witness :
  let p := set_max_iter (PInt 0) default_param in
  exists es op ms,
    _parse_early_stop (early_stop p) = Ok es
    /\ _parse_optimizer (optimizer p) = Ok op
    /\ _parse_metrics (metrics p) = Ok ms
    /\ early_stop (snd (check p)) = es
    /\ optimizer (snd (check p)) = op
    /\ metrics (snd (check p)) = ms
    /\ canonical_early_stop es /\ canonical_optimizer op
    /\ canonical_metrics ms.
Proof.
  apply (@check_failure_keeps_normal_forms sample
           (set_max_iter (PInt 0) default_param)
           (snd (check (set_max_iter (PInt 0) default_param)))
           (ValueError max_iter_value_msg [])); reflexivity.
Defined.

Lemma check_twice_raises_witness :
  check default_param
  = (Ok (PBool true),
     set_metrics (PList [])
       (set_optimizer (optimizer_ns (PStr "SGD") [])
          (set_early_stop (early_stop_ns (PStr "diff") default_eps)
             default_param)))
  /\ check (snd (check default_param))
     = (Raise (ValueError "invalid type for early_stop: {}"
                 [PStr "SimpleNamespace"]),
        snd (check default_param)).
Proof.
  split; [reflexivity|].
  apply (@check_twice_raises sample default_param _ (PBool true)).
  reflexivity.
Defined.

(** ** JSON: decoding what was encoded *)

Lemma dict_set_fresh (d : items) (k : string) (v : pyval) :
  existsb (String.eqb k) (map fst d) = false ->
  dict_set d k v = (d ++ [(k, v)])%list.
Proof.
  induction d as [|[k' v'] r IH]; simpl; [reflexivity|].
  rewrite orb_false_iff. intros [Hk Hr].
  rewrite String.eqb_sym, Hk. now rewrite IH.
Qed.

Lemma existsb_app_false (k : string) (l1 l2 : list string) :
  existsb (String.eqb k) (l1 ++ l2)%list = false
  <-> existsb (String.eqb k) l1 = false /\ existsb (String.eqb k) l2 = false.
Proof. rewrite existsb_app. apply orb_false_iff. Qed.

Lemma distinct_app_cons (l1 : list string) (k : string) (l2 : list string) :
  distinct (l1 ++ k :: l2)%list = true ->
  existsb (String.eqb k) l1 = false /\ distinct ((l1 ++ [k]) ++ l2)%list = true.
Proof.
  induction l1 as [|a l1 IH]; simpl.
  - intros H. split; [reflexivity|assumption].
  - rewrite !andb_true_iff, !negb_true_iff. intros [Ha Hd].
    destruct (IH Hd) as [Hk Hd'].
    apply existsb_app_false in Ha. destruct Ha as [Ha1 Ha2].
    simpl in Ha2. apply orb_false_iff in Ha2. destruct Ha2 as [Hak Ha2].
    split; [|split].
    + rewrite String.eqb_sym, Hak. exact Hk.
    + rewrite <- app_assoc. simpl. apply existsb_app_false.
      split; [assumption|]. simpl. rewrite Hak. exact Ha2.
    + exact Hd'.
Qed.

(** Members with distinct names decode to themselves, in order. *)
Lemma decode_members (ms : list (string * json)) (acc : items) :
  distinct (map fst acc ++ map fst ms)%list = true ->
  fold_left
    (fun (acc : items) (m : string * json) =>
       let (k, x) := m in dict_set acc k (decode x)) ms acc
  = (acc ++ map (fun m : string * json => let (k, x) := m in (k, decode x)) ms)%list.
Proof.
  revert acc. induction ms as [|[k x] r IH]; intros acc Hd; simpl.
  - now rewrite app_nil_r.
  - simpl in Hd. destruct (distinct_app_cons _ _ _ Hd) as [Hk Hd'].
    rewrite (dict_set_fresh _ _ _ Hk).
    rewrite IH.
    + now rewrite <- app_assoc.
    + rewrite map_app. exact Hd'.
Qed.

Lemma encode_members (d : items) :
  Forall (fun kv =>
            wf (snd kv) = true -> json_native (snd kv) = true ->
            exists j, encode (snd kv) = Ok j /\ decode j = snd kv) d ->
  forallb (fun kv : string * pyval => let (_, x) := kv in wf x) d = true ->
  forallb (fun kv : string * pyval => let (_, x) := kv in json_native x) d
  = true ->
  exists js,
    traverse
      (fun kv : string * pyval =>
         let (k, x) := kv in
         match encode x with Ok j => Ok (k, j) | Raise e => Raise e end) d
    = Ok js
    /\ map (fun m : string * json => let (k, x) := m in (k, decode x)) js = d
    /\ map fst js = map fst d.
Proof.
  induction 1 as [|[k x] r Hx _ IH]; simpl.
  - intros _ _. now exists [].
  - rewrite !andb_true_iff. intros [Hw Hws] [Hs Hss].
    destruct (Hx Hw Hs) as (j & Hj & Hdj).
    destruct (IH Hws Hss) as (js & Hjs & Hmap & Hkeys).
    simpl in Hj. rewrite Hj, Hjs. exists ((k, j) :: js). simpl.
    simpl in Hdj. now rewrite Hdj, Hmap, Hkeys.
Qed.

Lemma encode_elements (l : list pyval) :
  Forall (fun v =>
            wf v = true -> json_native v = true ->
            exists j, encode v = Ok j /\ decode j = v) l ->
  forallb wf l = true -> forallb json_native l = true ->
  exists js, traverse encode l = Ok js /\ map decode js = l.
Proof.
  induction 1 as [|x r Hx _ IH]; simpl.
  - intros _ _. now exists [].
  - rewrite !andb_true_iff. intros [Hw Hws] [Hs Hss].
    destruct (Hx Hw Hs) as (j & Hj & Hdj).
    destruct (IH Hws Hss) as (js & Hjs & Hmap).
    rewrite Hj, Hjs. exists (j :: js). simpl. now rewrite Hdj, Hmap.
Qed.

(** [json.loads(json.dumps(v))] is [v], for a value the encoder accepts. *)
Lemma encode_decode (v : pyval) :
  wf v = true -> json_native v = true ->
  exists j, encode v = Ok j /\ decode j = v.
Proof.
  induction v as [|b|z|f|s|l IH|d IH|a IH|t IH] using pyval_nested_ind;
    try (intros _ _; eexists; split; reflexivity).
  - intros Hw Hs. simpl in Hw, Hs.
    destruct (encode_elements _ IH Hw Hs) as (js & Hjs & Hmap).
    exists (JArray js). simpl. rewrite Hjs. split; [reflexivity|].
    now rewrite Hmap.
  - intros Hw Hs. simpl in Hw, Hs. apply andb_true_iff in Hw.
    destruct Hw as [Hd Hw].
    destruct (encode_members _ IH Hw Hs) as (js & Hjs & Hmap & Hkeys).
    exists (JObject js). simpl. rewrite Hjs. split; [reflexivity|].
    rewrite decode_members; [now rewrite Hmap|]. simpl. now rewrite Hkeys.
  - discriminate.
  - discriminate.
Qed.

Lemma loads_dumps (v : pyval) :
  wf v = true -> json_native v = true ->
  exists s, json_dumps v = Ok s /\ json_loads s = Ok v.
Proof.
  intros Hw Hs. destruct (encode_decode v Hw Hs) as (j & Hj & Hd).
  exists (Document j). unfold json_dumps, json_loads. now rewrite Hj, Hd.
Qed.

(** ** HeteroMatrixParam *)

Section HeteroProperties.

Context {fml : Federatedml}.

(** C10.  The constructor does not look at [penalty], [tol], [alpha],
    [learning_rate], [decay] and [decay_sqrt]: two calls that agree on the
    other nine arguments build the same object, whose fields are those nine
    arguments and the base constructor's defaults. *)
Theorem HeteroMatrixParam_new_ignores
    (penalty tol alpha learning_rate decay decay_sqrt : pyval)
    (penalty' tol' alpha' learning_rate' decay' decay_sqrt' : pyval)
    (optimizer batch_size : pyval) (init_param : MtxFInitParam)
    (max_iter early_stop : pyval) (predict_param : PredictParam)
    (cv_param : CrossValidationParam)
    (aggregate_iters validation_freqs : pyval) :
  HeteroMatrixParam_new penalty tol alpha optimizer batch_size learning_rate
    init_param max_iter early_stop predict_param cv_param decay decay_sqrt
    aggregate_iters validation_freqs
  = HeteroMatrixParam_new penalty' tol' alpha' optimizer batch_size
      learning_rate' init_param max_iter early_stop predict_param cv_param
      decay' decay_sqrt' aggregate_iters validation_freqs
  /\ HeteroMatrixParam_new penalty tol alpha optimizer batch_size learning_rate
       init_param max_iter early_stop predict_param cv_param decay decay_sqrt
       aggregate_iters validation_freqs
     = {| super :=
            {| secure_aggregate := PBool true;
               aggregate_every_n_epoch := PInt 1;
               early_stop := early_stop;
               metrics := PNone;
               loss := PStr "mse";
               optimizer := optimizer;
               batch_size := batch_size;
               init_param := init_param;
               max_iter := max_iter;
               predict_param := predict_param;
               cv_param := cv_param;
               validation_freqs := validation_freqs |};
          aggregate_iters := aggregate_iters |}.
Proof. split; reflexivity. Qed.


Lemma dict_without_absent (key : string) (d : items) :
  dict_mem d key = false -> dict_without key d = d.
Proof.
  unfold dict_mem, dict_without.
  induction d as [|[k v] r IH]; simpl; [reflexivity|].
  destruct (k =? key)%string; simpl; [discriminate|].
  intros H. now rewrite IH.
Qed.

Lemma restore_early_stop (m : string) (e : float) :
  truthy (PStr m) = true ->
  _parse_early_stop (PDict [("early_stop", PStr m); ("eps", PFloat e)])
  = Ok (early_stop_ns (PStr m) (PFloat e)).
Proof.
  intros Hm. unfold _parse_early_stop. cbn [dict_get lookup String.eqb Ascii.eqb Bool.eqb].
  now rewrite Hm.
Qed.

Lemma restore_optimizer (o : string) (kw : items) :
  truthy (PStr o) = true -> dict_mem kw "optimizer" = false ->
  _parse_optimizer (PDict (("optimizer", PStr o) :: kw))
  = Ok (optimizer_ns (PStr o) kw).
Proof.
  intros Ho Hkw. unfold _parse_optimizer.
  cbn [dict_get lookup String.eqb Ascii.eqb Bool.eqb]. rewrite Ho.
  cbn [negb]. unfold dict_without at 1.
  cbn [filter fst String.eqb Ascii.eqb Bool.eqb negb].
  fold (dict_without "optimizer" kw). now rewrite dict_without_absent.
Qed.







End HeteroProperties.

(** *** The round trip at work *)



(** * Further properties *)

(** ** The normalisers, beyond the claims *)

(** X1.  A mapping with a truthy method and no ["eps"] key normalises to
    that method with the default epsilon, whatever other keys it has. *)
Theorem parse_early_stop_default_eps (d : items) (m : pyval) :
  lookup d "early_stop" = Some m -> truthy m = true ->
  lookup d "eps" = None ->
  _parse_early_stop (PDict d) = Ok (early_stop_ns m (PFloat 0.0001%float)).
Proof.
  intros Hm Ht He. unfold _parse_early_stop.
  rewrite (lookup_dict_get _ _ _ _ Hm), (lookup_dict_get_none _ _ _ He).
  now rewrite Ht.
Qed.

Lemma parse_early_stop_default_eps_witness :
  _parse_early_stop
    (PDict [("tol", PInt 3); ("early_stop", PStr "weight_diff")])
  = Ok (early_stop_ns (PStr "weight_diff") (PFloat 0.0001%float)).
Proof.
  apply (parse_early_stop_default_eps
           [("tol", PInt 3); ("early_stop", PStr "weight_diff")]
           (PStr "weight_diff")); reflexivity.
Defined.

(** X2.  The metrics normaliser is idempotent: what it returns it accepts,
    and returns unchanged. *)
Theorem parse_metrics_idempotent (v ms : pyval) :
  _parse_metrics v = Ok ms -> _parse_metrics ms = Ok ms.
Proof.
  intros H. destruct (parse_metrics_shape _ _ H) as (l & ->).
  now destruct l.
Qed.

Lemma parse_metrics_idempotent_witness :
  _parse_metrics (PList [PStr "rmse"]) = Ok (PList [PStr "rmse"]).
Proof.
  apply (parse_metrics_idempotent (PStr "rmse") (PList [PStr "rmse"])).
  reflexivity.
Defined.

(** X3.  The early-stop and the optimizer normaliser accept none of their
    own results: a normal form handed back to the normaliser that made it
    ends in an input error. *)
Theorem normal_forms_rejected :
  (forall v es, _parse_early_stop v = Ok es ->
                raises_ValueError (_parse_early_stop es))
  /\ (forall v op, _parse_optimizer v = Ok op ->
                   raises_ValueError (_parse_optimizer op)).
Proof.
  split.
  - intros v es H. destruct (parse_early_stop_shape _ _ H) as (m & e & ->).
    now eexists; eexists.
  - intros v op H. destruct (parse_optimizer_shape _ _ H) as (o & kw & -> & _).
    now eexists; eexists.
Qed.

Lemma normal_forms_rejected_witness :
  raises_ValueError (_parse_early_stop (early_stop_ns (PStr "diff") default_eps))
  /\ raises_ValueError (_parse_optimizer (optimizer_ns (PStr "SGD") [])).
Proof.
  destruct normal_forms_rejected as [Hes Hop]. split.
  - apply (Hes (PStr "diff")). reflexivity.
  - apply (Hop (PStr "SGD")). reflexivity.
Defined.

(** ** [check], beyond the claims *)

Section CheckFurther.

Context {fml : Federatedml}.

Lemma check_raise_not_passes (p p' : MatrixFactorizationParam) (e : exn) :
  check p = (Raise e, p') -> passes p = false.
Proof.
  intros H. destruct (passes p) eqn:Hp; [|reflexivity].
  destruct (valid_check _ Hp) as (q & Hq). congruence.
Qed.

Lemma check_raise_is_ValueError (p p' : MatrixFactorizationParam) (e : exn) :
  check p = (Raise e, p') -> is_ValueError e = true.
Proof.
  intros H. destruct (check_fails _ (check_raise_not_passes _ _ _ H))
    as (e' & q & Hq & He).
  congruence.
Qed.

Lemma check_ok_True (p p' : MatrixFactorizationParam) (r : pyval) :
  check p = (Ok r, p') -> r = PBool true.
Proof.
  intros H. destruct (valid_check _ (check_ok_passes _ _ _ H)) as (q & Hq).
  congruence.
Qed.

(** [HeteroMatrixParam.check], run: the base class first, then the test on
    [aggregate_iters]. *)
Lemma hetero_check_run (self : HeteroMatrixParam) :
  HeteroMatrixParam_check self
  = match check (super self) with
    | (Raise e, b) =>
        (Raise e, {| super := b; aggregate_iters := aggregate_iters self |})
    | (Ok _, b) =>
        if isinstance_int (aggregate_iters self)
        then (Ok (PBool true),
              {| super := b; aggregate_iters := aggregate_iters self |})
        else (Raise (ValueError aggregate_iters_msg [aggregate_iters self]),
              {| super := b; aggregate_iters := aggregate_iters self |})
    end.
Proof.
  unfold HeteroMatrixParam_check, bind, on_super, attr, when, raise, ret.
  destruct (check (super self)) as [[r|e] b]; [|reflexivity].
  cbn [aggregate_iters].
  destruct (isinstance_int (aggregate_iters self)); reflexivity.
Qed.

(** Whatever [check] ends in, it has assigned nothing but the three
    normalised fields and [init_param]. *)
Lemma check_frame (p p' : MatrixFactorizationParam) (r : Result pyval) :
  check p = (r, p') -> untouched_by_check p p'.
Proof.
  destruct (_parse_early_stop (early_stop p)) as [es|e] eqn:Hes.
  2:{ unfold check, bind. rewrite normalize_run, Hes.
      intros [= _ <-]. now repeat split. }
  destruct (_parse_optimizer (optimizer p)) as [op|e] eqn:Hop.
  2:{ unfold check, bind. rewrite normalize_run, Hes, Hop.
      intros [= _ <-]. now repeat split. }
  destruct (_parse_metrics (metrics p)) as [ms|e] eqn:Hms.
  2:{ unfold check, bind. rewrite normalize_run, Hes, Hop, Hms.
      intros [= _ <-]. now repeat split. }
  destruct (parse_optimizer_shape _ _ Hop) as (o & kw & -> & _).
  rewrite (check_run _ _ _ _ _ Hes Hop Hms).
  destruct (negb (batch_size_valid (batch_size p)));
    [intros [= _ <-]; now repeat split|].
  destruct (negb (kwarg_passes kw "decay"));
    [intros [= _ <-]; now repeat split|].
  destruct (negb (kwarg_passes kw "learning_rate"));
    [intros [= _ <-]; now repeat split|].
  destruct (InitParam_check (init_param p)) as [[[msg args]|] ip'];
    [intros [= _ <-]; now repeat split|].
  destruct (max_iter p) as [|b|z|f|s|l|d|a|t] eqn:Hm;
    try (intros [= _ <-]; now repeat split).
  destruct (1 <=? z); intros [= _ <-]; now repeat split.
Qed.

(** X4.  On an object whose [init_param] is an [MtxFInitParam], with an
    [InitParam.check] that raises input errors only, neither [check] lets
    anything but an input error out, whatever [early_stop], [optimizer],
    [metrics], [batch_size], [max_iter] and [aggregate_iters] hold: the
    comparisons are guarded by the type tests before them, so no [TypeError],
    [KeyError] or [AttributeError] comes out of the normalisers and the tests
    on these fields. *)
Theorem checks_raise_only_ValueError :
  (forall (p p' : MatrixFactorizationParam) e,
      check p = (Raise e, p') -> is_ValueError e = true)
  /\ (forall (self self' : HeteroMatrixParam) e,
         HeteroMatrixParam_check self = (Raise e, self') ->
         is_ValueError e = true).
Proof.
  split; [exact check_raise_is_ValueError|].
  intros self self' e. rewrite hetero_check_run.
  destruct (check (super self)) as [[r|e'] b] eqn:Hc.
  - destruct (isinstance_int (aggregate_iters self)); [discriminate|].
    now intros [= <- _].
  - intros [= <- _]. exact (check_raise_is_ValueError _ _ _ Hc).
Qed.

(** X5.  [check] returns exactly when every test passes, and then it
    returns [True]: the normalisers accept, the batch size is -1 or an [int]
    no smaller than the minimum, the entries ['decay'] and ['learning_rate'],
    when present, are numbers not below zero, [InitParam.check] accepts, and
    [max_iter] is an [int] of at least 1. *)
Theorem check_returns_iff (p : MatrixFactorizationParam) :
  (passes p = true <-> exists p', check p = (Ok (PBool true), p'))
  /\ (forall r p', check p = (Ok r, p') -> r = PBool true).
Proof.
  split; [split|].
  - apply valid_check.
  - intros (p' & H). exact (check_ok_passes _ _ _ H).
  - intros r p'. apply check_ok_True.
Qed.

(** X6.  Whatever [check] ends in, it has assigned only [early_stop],
    [optimizer], [metrics] and [init_param]: the flag, the cadence, the loss,
    the batch size, the iteration cap, the prediction and cross-validation
    parameters and the validation frequency are as before. *)
Theorem check_assigns_only_normal_forms
    (p p' : MatrixFactorizationParam) (r : Result pyval) :
  check p = (r, p') -> untouched_by_check p p'.
Proof. apply check_frame. Qed.

(** X7.  A normaliser that rejects its field stops [check] where it stands:
    a rejected early-stop leaves the object as it was; a rejected optimizer
    leaves the early-stop already normalised; rejected metrics leave both
    already normalised.  The error is the normaliser's. *)
Theorem check_stops_at_rejected_field (p : MatrixFactorizationParam) :
  (forall e, _parse_early_stop (early_stop p) = Raise e ->
             check p = (Raise e, p))
  /\ (forall es e,
         _parse_early_stop (early_stop p) = Ok es ->
         _parse_optimizer (optimizer p) = Raise e ->
         check p = (Raise e, set_early_stop es p))
  /\ (forall es op e,
         _parse_early_stop (early_stop p) = Ok es ->
         _parse_optimizer (optimizer p) = Ok op ->
         _parse_metrics (metrics p) = Raise e ->
         check p = (Raise e, set_optimizer op (set_early_stop es p))).
Proof.
  split; [|split].
  - intros e He. unfold check, bind. now rewrite normalize_run, He.
  - intros es e Hes He. unfold check, bind.
    now rewrite normalize_run, Hes, He.
  - intros es op e Hes Hop He. unfold check, bind.
    now rewrite normalize_run, Hes, Hop, He.
Qed.

(** X8.  The tests run in the source's order and the first one that fails
    decides the error, which carries the offending value: an invalid batch
    size is reported whatever the later fields hold, an invalid ['decay']
    before an invalid ['learning_rate'], and both before [init_param] and
    [max_iter] are looked at. *)
Theorem check_reports_first_failure
    (p : MatrixFactorizationParam) (es o : pyval) (kw : items) (ms : pyval) :
  _parse_early_stop (early_stop p) = Ok es ->
  _parse_optimizer (optimizer p) = Ok (optimizer_ns o kw) ->
  _parse_metrics (metrics p) = Ok ms ->
  let p1 :=
    set_metrics ms (set_optimizer (optimizer_ns o kw) (set_early_stop es p)) in
  (batch_size_valid (batch_size p) = false ->
   check p = (Raise (ValueError batch_size_msg [batch_size p]), p1))
  /\ (forall v,
         batch_size_valid (batch_size p) = true ->
         lookup kw "decay" = Some v ->
         isinstance_int_float v = false \/ negative v = true ->
         check p = (Raise (ValueError decay_msg [v]), p1))
  /\ (forall v,
         batch_size_valid (batch_size p) = true ->
         kwarg_passes kw "decay" = true ->
         lookup kw "learning_rate" = Some v ->
         isinstance_int_float v = false \/ negative v = true ->
         check p = (Raise (ValueError learning_rate_msg [v]), p1)).
Proof.
  intros Hes Hop Hms p1.
  assert (Hbad : forall name v,
             lookup kw name = Some v ->
             isinstance_int_float v = false \/ negative v = true ->
             kwarg_passes kw name = false /\ dict_get kw name PNone = v).
  { intros name v Hv Hb. unfold kwarg_passes, dict_get. rewrite Hv.
    split; [|reflexivity].
    destruct Hb as [-> | ->]; [reflexivity|apply andb_false_r]. }
  split; [|split].
  - intros Hb. rewrite (check_run _ _ _ _ _ Hes Hop Hms), Hb. reflexivity.
  - intros v Hb Hv Hbadv. destruct (Hbad _ _ Hv Hbadv) as [Hk Hg].
    rewrite (check_run _ _ _ _ _ Hes Hop Hms), Hb, Hk, Hg. reflexivity.
  - intros v Hb Hd Hv Hbadv. destruct (Hbad _ _ Hv Hbadv) as [Hk Hg].
    rewrite (check_run _ _ _ _ _ Hes Hop Hms), Hb, Hd, Hk, Hg. reflexivity.
Qed.

(** X9.  A batch size that is not of type [int] is rejected unless it
    equals -1: a float such as 32.0, a bool, a string or [None] fails even
    when it is no smaller than the minimum. *)
Theorem check_rejects_non_int_batch_size (p : MatrixFactorizationParam) :
  type_name (batch_size p) <> "int" ->
  py_ne (batch_size p) (-1) = true ->
  exists e p', check p = (Raise e, p') /\ is_ValueError e = true.
Proof.
  intros Hty Hne. apply not_passes_fails. intros Hp.
  apply passes_batch_size in Hp. unfold batch_size_valid in Hp.
  rewrite Hne in Hp. cbn in Hp.
  destruct (batch_size p); try discriminate. now apply Hty.
Qed.

(** X10.  The tests on ['decay'] and ['learning_rate'] let through every
    number that is not below zero, which includes a NaN and the booleans:
    with such entries and the other fields valid, [check] returns [True]. *)
Theorem check_accepts_unordered_kwargs
    (p : MatrixFactorizationParam) (kw : items) :
  normalized_kwargs p = Some kw ->
  (forall name v,
      name = "decay" \/ name = "learning_rate" ->
      lookup kw name = Some v ->
      isinstance_int_float v = true /\ negative v = false) ->
  normalizers_accept p = true ->
  batch_size_valid (batch_size p) = true ->
  init_param_valid (init_param p) = true ->
  max_iter_valid (max_iter p) = true ->
  exists p', check p = (Ok (PBool true), p').
Proof.
  intros Hkw Hall Hn Hb Hi Hm. apply valid_check. unfold passes.
  rewrite Hkw, Hn, Hb, Hi, Hm.
  assert (Hk : forall name, name = "decay" \/ name = "learning_rate" ->
                            kwarg_passes kw name = true).
  { intros name Hname. unfold kwarg_passes.
    destruct (lookup kw name) as [v|] eqn:Hv; [|reflexivity].
    destruct (Hall _ _ Hname Hv) as [-> ->]. reflexivity. }
  rewrite (Hk "decay"), (Hk "learning_rate"); auto.
Qed.

End CheckFurther.

(** *** The further rules at work on [MatrixFactorizationParam()] *)

Lemma checks_raise_only_ValueError_witness :
  check (set_batch_size (PStr "32") default_param)
  = (Raise (ValueError batch_size_msg [PStr "32"]),
     snd (check (set_batch_size (PStr "32") default_param)))
  /\ is_ValueError (ValueError batch_size_msg [PStr "32"]) = true.
Proof.
  split; [reflexivity|].
  destruct (@checks_raise_only_ValueError sample) as [H _].
  apply (H (set_batch_size (PStr "32") default_param)
           (snd (check (set_batch_size (PStr "32") default_param)))).
  reflexivity.
Defined.

Lemma check_returns_iff_witness :
  exists p', check default_param = (Ok (PBool true), p').
Proof.
  destruct (@check_returns_iff sample default_param) as [[H _] _].
  apply H. reflexivity.
Defined.

Lemma check_assigns_only_normal_forms_witness :
  untouched_by_check (set_max_iter (PInt 0) default_param)
    (snd (check (set_max_iter (PInt 0) default_param))).
Proof.
  apply (@check_assigns_only_normal_forms sample
           (set_max_iter (PInt 0) default_param) _
           (Raise (ValueError max_iter_value_msg []))).
  reflexivity.
Defined.

Lemma check_stops_at_rejected_field_witness :
  let p := set_optimizer (PInt 7) default_param in
  check p
  = (Raise (ValueError "invalid type for optimize: {}" [PStr "int"]),
     set_early_stop (early_stop_ns (PStr "diff") default_eps) p).
Proof.
  destruct (@check_stops_at_rejected_field sample
              (set_optimizer (PInt 7) default_param)) as (_ & H & _).
  apply H; reflexivity.
Defined.

Lemma check_reports_first_failure_witness :
  let p := set_max_iter (PInt 0) (set_batch_size (PInt 3) default_param) in
  check p
  = (Raise (ValueError batch_size_msg [PInt 3]),
     set_metrics (PList [])
       (set_optimizer (optimizer_ns (PStr "SGD") [])
          (set_early_stop (early_stop_ns (PStr "diff") default_eps) p))).
Proof.
  destruct (@check_reports_first_failure sample
              (set_max_iter (PInt 0) (set_batch_size (PInt 3) default_param))
              (early_stop_ns (PStr "diff") default_eps) (PStr "SGD") []
              (PList []) eq_refl eq_refl eq_refl) as (H & _).
  apply H. reflexivity.
Defined.

Lemma check_rejects_non_int_batch_size_witness :
  exists e p',
    check (set_batch_size (PFloat 32.0%float) default_param) = (Raise e, p')
    /\ is_ValueError e = true.
Proof.
  apply (@check_rejects_non_int_batch_size sample).
  - discriminate.
  - reflexivity.
Defined.

Lemma check_accepts_unordered_kwargs_witness :
  exists p',
    check (set_optimizer (sgd_with (PFloat nan)) default_param)
    = (Ok (PBool true), p').
Proof.
  apply (@check_accepts_unordered_kwargs sample _
           [("learning_rate", PFloat 0.05%float); ("decay", PFloat nan)]);
    try reflexivity.
  intros name v [-> | ->] H; cbn in H; injection H as <-; split; reflexivity.
Defined.

(** ** [HeteroMatrixParam], beyond the claims *)

Section HeteroFurther.

Context {fml : Federatedml}.

(** X11.  [HeteroMatrixParam.check] looks at [aggregate_iters] only after
    the base class has accepted, and only at its type: an [int] of any sign
    and a [bool] pass, anything else (a float such as 1.0) is an input error
    raised on an object whose three fields are already normalised; when the
    base class raises, its error is the outcome. *)
Theorem hetero_check_aggregate_iters (self : HeteroMatrixParam) :
  (forall e b,
      check (super self) = (Raise e, b) ->
      HeteroMatrixParam_check self
      = (Raise e, {| super := b; aggregate_iters := aggregate_iters self |}))
  /\ (passes (super self) = true ->
      isinstance_int (aggregate_iters self) = true ->
      exists b,
        HeteroMatrixParam_check self
        = (Ok (PBool true),
           {| super := b; aggregate_iters := aggregate_iters self |})
        /\ canonical b)
  /\ (passes (super self) = true ->
      isinstance_int (aggregate_iters self) = false ->
      exists b,
        HeteroMatrixParam_check self
        = (Raise (ValueError aggregate_iters_msg [aggregate_iters self]),
           {| super := b; aggregate_iters := aggregate_iters self |})
        /\ canonical b).
Proof.
  assert (Hcan : passes (super self) = true ->
                 exists b, check (super self) = (Ok (PBool true), b)
                           /\ canonical b).
  { intros Hp.
    destruct (check_passes _ Hp) as (es & op & ms & ip' & Hes & Hop & Hms & Hc).
    eexists. split; [exact Hc|]. unfold canonical.
    cbn [set_init_param set_metrics set_optimizer set_early_stop
           MatrixFactorizationParam_new early_stop optimizer metrics].
    split; [exact (parse_early_stop_shape _ _ Hes)|].
    split; [exact (parse_optimizer_shape _ _ Hop)|].
    exact (parse_metrics_shape _ _ Hms). }
  split; [|split].
  - intros e b Hc. now rewrite hetero_check_run, Hc.
  - intros Hp Ha. destruct (Hcan Hp) as (b & Hc & Hb). exists b.
    split; [|exact Hb]. now rewrite hetero_check_run, Hc, Ha.
  - intros Hp Ha. destruct (Hcan Hp) as (b & Hc & Hb). exists b.
    split; [|exact Hb]. now rewrite hetero_check_run, Hc, Ha.
Qed.

(** [restore_from_pb], run: four assignments, the early-stop normaliser, the
    metrics, the argument text, the optimizer normaliser, and the last two
    assignments. *)
Lemma restore_run (pb : HeteroMFParam) (target : HeteroMatrixParam) :
  restore_from_pb pb target
  = let t4 :=
      set_max_iter (PInt (pb_max_iter pb))
        (set_batch_size (PInt (pb_batch_size pb))
           (set_aggregate_every_n_epoch (PInt (pb_aggregate_every_n_epoch pb))
              (set_secure_aggregate (PBool (pb_secure_aggregate pb))
                 (super target)))) in
    match _parse_early_stop
            (PDict [("early_stop", PStr (pb_early_stop (pb_es pb)));
                    ("eps", PFloat (pb_eps (pb_es pb)))]) with
    | Raise e =>
        (Raise e, {| super := t4; aggregate_iters := aggregate_iters target |})
    | Ok es =>
        let t6 :=
          set_metrics (PList (map PStr (pb_metrics pb))) (set_early_stop es t4) in
        match json_loads (pb_args (pb_opt pb)) with
        | Raise e =>
            (Raise e,
             {| super := t6; aggregate_iters := aggregate_iters target |})
        | Ok extra =>
            match dict_optimizer (PStr (pb_optimizer (pb_opt pb))) extra with
            | Raise e =>
                (Raise e,
                 {| super := t6; aggregate_iters := aggregate_iters target |})
            | Ok d =>
                match _parse_optimizer d with
                | Raise e =>
                    (Raise e,
                     {| super := t6;
                        aggregate_iters := aggregate_iters target |})
                | Ok op =>
                    (Ok tt,
                     {| super :=
                          set_init_param
                            (MtxFInitParam_new (PInt (pb_embed_dim pb))
                               (PStr "random_normal"))
                            (set_loss (PStr (pb_loss pb)) (set_optimizer op t6));
                        aggregate_iters := aggregate_iters target |})
                end
            end
        end
    end.
Proof.
  unfold restore_from_pb, on_super, bind, assign, eval. cbv zeta.
  destruct (_parse_early_stop _) as [es|e]; [|reflexivity].
  destruct (json_loads _) as [extra|e]; [|reflexivity].
  destruct (dict_optimizer _ extra) as [d|e]; [|reflexivity].
  destruct (_parse_optimizer d) as [op|e]; reflexivity.
Qed.

Lemma restorable_inv (pb : HeteroMFParam) (d : items) :
  restorable pb = Some d ->
  truthy (PStr (pb_early_stop (pb_es pb))) = true
  /\ truthy (PStr (pb_optimizer (pb_opt pb))) = true
  /\ json_loads (pb_args (pb_opt pb)) = Ok (PDict d)
  /\ dict_mem d "optimizer" = false.
Proof.
  unfold restorable, truthy.
  destruct (negb (pb_early_stop (pb_es pb) =? "")%string); [|discriminate].
  destruct (negb (pb_optimizer (pb_opt pb) =? "")%string); [|discriminate].
  cbn [andb].
  destruct (pb_args (pb_opt pb)) as [|j]; [discriminate|]. cbn [json_loads].
  destruct (decode j) as [| | | | | |d'| |]; try discriminate.
  destruct (dict_mem d' "optimizer") eqn:Hm; [discriminate|].
  now intros [= <-].
Qed.

Lemma restore_of_restorable (pb : HeteroMFParam) (d : items)
    (target : HeteroMatrixParam) :
  restorable pb = Some d ->
  restore_from_pb pb target = (Ok tt, restored pb d target).
Proof.
  intros H. destruct (restorable_inv _ _ H) as (Hm & Ho & Hl & Hd).
  rewrite restore_run. cbv zeta.
  rewrite (restore_early_stop _ _ Hm), Hl. cbn [dict_optimizer]. rewrite Hd.
  rewrite (restore_optimizer _ _ Ho Hd). reflexivity.
Qed.

Lemma restore_not_restorable (pb : HeteroMFParam) (target : HeteroMatrixParam) :
  restorable pb = None ->
  exists e t', restore_from_pb pb target = (Raise e, t').
Proof.
  intros H. rewrite restore_run. cbv zeta.
  unfold restorable in H. unfold _parse_early_stop at 1.
  cbn [dict_get lookup String.eqb Ascii.eqb Bool.eqb truthy].
  destruct (negb (pb_early_stop (pb_es pb) =? "")%string);
    cbn [negb]; [|now eexists; eexists].
  cbn [andb] in H.
  destruct (pb_args (pb_opt pb)) as [|j]; [now eexists; eexists|].
  cbn [json_loads].
  destruct (decode j) as [| | | | | |d| |]; try (now eexists; eexists).
  cbn [dict_optimizer].
  destruct (dict_mem d "optimizer") eqn:Hd; [now eexists; eexists|].
  unfold _parse_optimizer.
  cbn [dict_get lookup String.eqb Ascii.eqb Bool.eqb truthy].
  destruct (negb (pb_optimizer (pb_opt pb) =? "")%string);
    [discriminate|now eexists; eexists].
Qed.

Lemma restore_ok_inv (pb : HeteroMFParam) (target t' : HeteroMatrixParam)
    (r : unit) :
  restore_from_pb pb target = (Ok r, t') ->
  exists d, restorable pb = Some d /\ t' = restored pb d target.
Proof.
  intros H. destruct (restorable pb) as [d|] eqn:Hr.
  - exists d. split; [reflexivity|].
    rewrite (restore_of_restorable _ _ _ Hr) in H. now injection H.
  - destruct (restore_not_restorable _ target Hr) as (e & q & Hq). congruence.
Qed.

(** X12.  [restore_from_pb] returns exactly on the records whose two names
    are not empty and whose argument text is a JSON object without a member
    ["optimizer"]; it then leaves the object with the record's nine values,
    the arguments the text denotes, and a fresh [MtxFInitParam] whose
    [init_method] is the default ['random_normal'] whatever it was before. *)
Theorem restore_returns_iff (pb : HeteroMFParam) (target : HeteroMatrixParam) :
  (forall d, restorable pb = Some d ->
             restore_from_pb pb target = (Ok tt, restored pb d target))
  /\ (restorable pb = None ->
      exists e t', restore_from_pb pb target = (Raise e, t'))
  /\ (forall t', restore_from_pb pb target = (Ok tt, t') ->
                 init_method (init_param (super t')) = PStr "random_normal"
                 /\ embed_dim (init_param (super t')) = PInt (pb_embed_dim pb)).
Proof.
  split; [|split].
  - intros d. apply restore_of_restorable.
  - apply restore_not_restorable.
  - intros t' H. destruct (restore_ok_inv _ _ _ _ H) as (d & _ & ->).
    split; reflexivity.
Qed.

(** X13.  Whatever [restore_from_pb] ends in, it has not assigned
    [aggregate_iters], [predict_param], [cv_param] or [validation_freqs]: they
    are the target's. *)
Theorem restore_assigns_only_persisted
    (pb : HeteroMFParam) (target t' : HeteroMatrixParam) (r : Result unit) :
  restore_from_pb pb target = (r, t') -> untouched_by_restore target t'.
Proof.
  rewrite restore_run. cbv zeta.
  destruct (_parse_early_stop _) as [es|e];
    [|intros [= _ <-]; now repeat split].
  destruct (json_loads _) as [extra|e]; [|intros [= _ <-]; now repeat split].
  destruct (dict_optimizer _ extra) as [d|e];
    [|intros [= _ <-]; now repeat split].
  destruct (_parse_optimizer d) as [op|e]; intros [= _ <-]; now repeat split.
Qed.

(** X14.  A record with an empty early-stop method makes [restore_from_pb]
    raise an input error half way: the flag, the cadence, the batch size and
    the iteration cap are already the record's, and every other field is
    still the target's. *)
Theorem restore_empty_method_half_way
    (pb : HeteroMFParam) (target : HeteroMatrixParam) :
  pb_early_stop (pb_es pb) = "" ->
  restore_from_pb pb target
  = (Raise (ValueError "early_stop config: {} invalid"
              [PDict [("early_stop", PStr "");
                      ("eps", PFloat (pb_eps (pb_es pb)))]]),
     {| super :=
          set_max_iter (PInt (pb_max_iter pb))
            (set_batch_size (PInt (pb_batch_size pb))
               (set_aggregate_every_n_epoch
                  (PInt (pb_aggregate_every_n_epoch pb))
                  (set_secure_aggregate (PBool (pb_secure_aggregate pb))
                     (super target))));
        aggregate_iters := aggregate_iters target |}).
Proof.
  intros Hm. rewrite restore_run, Hm. reflexivity.
Qed.

(** X15.  The argument text decides three more failures of
    [restore_from_pb], each after the early-stop and the metrics have been
    assigned: text that is no JSON is an input error, a JSON value that is no
    object is a [TypeError], and an object with a member ["optimizer"] is a
    [TypeError] as well, for the name is passed twice. *)
Theorem restore_argument_text_failures
    (pb : HeteroMFParam) (target : HeteroMatrixParam) :
  pb_early_stop (pb_es pb) <> "" ->
  let t6 :=
    {| super :=
         set_metrics (PList (map PStr (pb_metrics pb)))
           (set_early_stop
              (early_stop_ns (PStr (pb_early_stop (pb_es pb)))
                 (PFloat (pb_eps (pb_es pb))))
              (set_max_iter (PInt (pb_max_iter pb))
                 (set_batch_size (PInt (pb_batch_size pb))
                    (set_aggregate_every_n_epoch
                       (PInt (pb_aggregate_every_n_epoch pb))
                       (set_secure_aggregate (PBool (pb_secure_aggregate pb))
                          (super target))))));
       aggregate_iters := aggregate_iters target |} in
  (pb_args (pb_opt pb) = Unparsable ->
   restore_from_pb pb target = (Raise (ValueError "JSONDecodeError" []), t6))
  /\ (forall j,
         pb_args (pb_opt pb) = Document j ->
         (forall d, decode j <> PDict d) ->
         exists msg, restore_from_pb pb target = (Raise (TypeError msg), t6))
  /\ (forall j d,
         pb_args (pb_opt pb) = Document j ->
         decode j = PDict d -> dict_mem d "optimizer" = true ->
         exists msg, restore_from_pb pb target = (Raise (TypeError msg), t6)).
Proof.
  intros Hm t6.
  assert (Ht : truthy (PStr (pb_early_stop (pb_es pb))) = true).
  { cbn. apply String.eqb_neq in Hm. now rewrite Hm. }
  split; [|split].
  - intros Ha. rewrite restore_run. cbv zeta.
    rewrite (restore_early_stop _ _ Ht), Ha. reflexivity.
  - intros j Ha Hj. rewrite restore_run. cbv zeta.
    rewrite (restore_early_stop _ _ Ht), Ha. cbn [json_loads].
    destruct (decode j) as [| | | | | |d| |]; try (eexists; reflexivity).
    now elim (Hj d).
  - intros j d Ha Hj Hd. rewrite restore_run. cbv zeta.
    rewrite (restore_early_stop _ _ Ht), Ha. cbn [json_loads]. rewrite Hj.
    cbn [dict_optimizer]. rewrite Hd. eexists; reflexivity.
Qed.

(** X16.  An object that [restore_from_pb] has rebuilt does not pass
    [check]: its early-stop is a [SimpleNamespace], which the normaliser
    takes for neither a string nor a mapping. *)
Theorem restored_object_fails_check
    (pb : HeteroMFParam) (target t' : HeteroMatrixParam) :
  restore_from_pb pb target = (Ok tt, t') ->
  HeteroMatrixParam_check t'
  = (Raise (ValueError "invalid type for early_stop: {}"
              [PStr "SimpleNamespace"]), t').
Proof.
  intros H. destruct (restore_ok_inv _ _ _ _ H) as (d & _ & ->).
  rewrite hetero_check_run. unfold check, bind. rewrite normalize_run.
  reflexivity.
Qed.

End HeteroFurther.

(** ** [generate_pb], beyond the claims *)

Lemma existsb_dict_set (a : string) (d : items) (k : string) (v : pyval) :
  existsb (String.eqb a) (map fst (dict_set d k v))
  = existsb (String.eqb a) (map fst d) || (a =? k)%string.
Proof.
  induction d as [|[k' v'] r IH]; simpl.
  - now rewrite orb_false_r.
  - destruct (k' =? k)%string eqn:Hk; simpl.
    + apply String.eqb_eq in Hk. subst k'.
      destruct (a =? k)%string; simpl; [reflexivity|now rewrite orb_false_r].
    + rewrite IH. now rewrite orb_assoc.
Qed.

Lemma dict_set_distinct (d : items) (k : string) (v : pyval) :
  distinct (map fst d) = true -> distinct (map fst (dict_set d k v)) = true.
Proof.
  induction d as [|[k' v'] r IH]; simpl; [reflexivity|].
  rewrite andb_true_iff, negb_true_iff. intros [Hk' Hr].
  destruct (k' =? k)%string eqn:Hk; simpl.
  - now rewrite Hk', Hr.
  - rewrite existsb_dict_set, Hk', Hk. simpl. now apply IH.
Qed.

Lemma dict_set_forallb (f : pyval -> bool) (d : items) (k : string)
    (v : pyval) :
  forallb (fun kv : string * pyval => let (_, x) := kv in f x) d = true ->
  f v = true ->
  forallb (fun kv : string * pyval => let (_, x) := kv in f x) (dict_set d k v)
  = true.
Proof.
  intros Hd Hv. induction d as [|[k' v'] r IH]; simpl.
  - now rewrite Hv.
  - simpl in Hd. apply andb_true_iff in Hd. destruct Hd as [Hv' Hr].
    destruct (k' =? k)%string; simpl.
    + now rewrite Hv, Hr.
    + now rewrite Hv', IH.
Qed.

Lemma decode_members_inv (P : pyval -> bool) (ms : list (string * json))
    (acc : items) :
  Forall (fun m => P (decode (snd m)) = true) ms ->
  distinct (map fst acc) = true ->
  forallb (fun kv : string * pyval => let (_, x) := kv in P x) acc = true ->
  let d :=
    fold_left
      (fun (acc : items) (m : string * json) =>
         let (k, x) := m in dict_set acc k (decode x)) ms acc in
  distinct (map fst d) = true
  /\ forallb (fun kv : string * pyval => let (_, x) := kv in P x) d = true.
Proof.
  intros H. revert acc. induction H as [|[k x] r Hx _ IH]; intros acc Hd Ha.
  - now split.
  - simpl. apply IH.
    + now apply dict_set_distinct.
    + now apply dict_set_forallb.
Qed.

(** What the decoder returns the encoder accepts, and its dictionaries have
    distinct keys. *)
Lemma decode_json_native (j : json) : json_native (decode j) = true.
Proof.
  induction j as [|b|z|f|s|l IH|ms IH] using json_nested_ind;
    try reflexivity.
  - simpl. induction IH as [|x r Hx _ IHr]; simpl; [reflexivity|].
    now rewrite Hx, IHr.
  - simpl. apply (decode_members_inv json_native ms [] IH); reflexivity.
Qed.

Lemma decode_wf (j : json) : wf (decode j) = true.
Proof.
  induction j as [|b|z|f|s|l IH|ms IH] using json_nested_ind;
    try reflexivity.
  - simpl. induction IH as [|x r Hx _ IHr]; simpl; [reflexivity|].
    now rewrite Hx, IHr.
  - simpl.
    destruct (decode_members_inv wf ms [] IH eq_refl eq_refl) as [Hd Hw].
    now rewrite Hd, Hw.
Qed.

Lemma append_all_inv (l : list pyval) (ss : list string) :
  append_all l = Ok ss -> l = map PStr ss.
Proof.
  revert ss. induction l as [|x r IH]; intros ss; simpl.
  - now intros [= <-].
  - destruct x; simpl; try discriminate.
    destruct (append_all r) as [ss'|]; [|discriminate].
    intros [= <-]. simpl. now rewrite (IH ss').
Qed.

Lemma append_all_map (ss : list string) : append_all (map PStr ss) = Ok ss.
Proof.
  induction ss as [|s r IH]; simpl; [reflexivity|]. now rewrite IH.
Qed.

Section GenerateFurther.

Context {fml : Federatedml}.

Lemma to_str_inv (v : pyval) (s : string) : to_str v = Ok s -> v = PStr s.
Proof. destruct v; simpl; try discriminate. now intros [= <-]. Qed.

(** [generate_pb] that returned: what its steps returned. *)
Lemma generate_pb_inv (self s : HeteroMatrixParam) (pb : HeteroMFParam) :
  generate_pb self = (Ok pb, s) ->
  s = self
  /\ to_bool (secure_aggregate (super self)) = Ok (pb_secure_aggregate pb)
  /\ to_int (aggregate_every_n_epoch (super self))
     = Ok (pb_aggregate_every_n_epoch pb)
  /\ to_int (batch_size (super self)) = Ok (pb_batch_size pb)
  /\ to_int (max_iter (super self)) = Ok (pb_max_iter pb)
  /\ (exists v, getattr (early_stop (super self)) "converge_func" = Ok v
                /\ to_str v = Ok (pb_early_stop (pb_es pb)))
  /\ (exists v, getattr (early_stop (super self)) "eps" = Ok v
                /\ to_float v = Ok (pb_eps (pb_es pb)))
  /\ (exists l, iterate (metrics (super self)) = Ok l
                /\ append_all l = Ok (pb_metrics pb))
  /\ (exists v, getattr (optimizer (super self)) "optimizer" = Ok v
                /\ to_str v = Ok (pb_optimizer (pb_opt pb)))
  /\ (exists v, getattr (optimizer (super self)) "kwargs" = Ok v
                /\ json_dumps v = Ok (pb_args (pb_opt pb)))
  /\ to_str (loss (super self)) = Ok (pb_loss pb)
  /\ to_int (embed_dim (init_param (super self))) = Ok (pb_embed_dim pb).
Proof.
  unfold generate_pb, bind, attr, eval, ret.
  destruct (to_bool _) as [sa|]; [|discriminate].
  destruct (to_int (aggregate_every_n_epoch _)) as [ag|]; [|discriminate].
  destruct (to_int (batch_size _)) as [bs|]; [|discriminate].
  destruct (to_int (max_iter _)) as [mi|]; [|discriminate].
  destruct (getattr (early_stop _) "converge_func") as [cf|]; [|discriminate].
  destruct (to_str cf) as [cfs|] eqn:Hcf; [|discriminate].
  destruct (getattr (early_stop _) "eps") as [e|]; [|discriminate].
  destruct (to_float e) as [ef|] eqn:He; [|discriminate].
  destruct (iterate _) as [l|]; [|discriminate].
  destruct (append_all l) as [ss|] eqn:Hl; [|discriminate].
  destruct (getattr (optimizer _) "optimizer") as [o|]; [|discriminate].
  destruct (to_str o) as [os|] eqn:Ho; [|discriminate].
  destruct (getattr (optimizer _) "kwargs") as [kw|]; [|discriminate].
  destruct (json_dumps kw) as [a|] eqn:Hkw; [|discriminate].
  destruct (to_str (loss _)) as [ls|]; [|discriminate].
  destruct (to_int (embed_dim _)) as [ed|]; [|discriminate].
  intros [= <- <-]. cbn.
  repeat (split; [first [reflexivity | eexists; split; [reflexivity|assumption]]|]).
  reflexivity.
Qed.

(** [generate_pb] assigns nothing. *)
Lemma generate_pb_state (self : HeteroMatrixParam) :
  snd (generate_pb self) = self.
Proof.
  unfold generate_pb, bind, attr, eval, ret.
  destruct (to_bool _); [|reflexivity].
  destruct (to_int (aggregate_every_n_epoch _)); [|reflexivity].
  destruct (to_int (batch_size _)); [|reflexivity].
  destruct (to_int (max_iter _)); [|reflexivity].
  destruct (getattr (early_stop _) "converge_func") as [cf|]; [|reflexivity].
  destruct (to_str cf); [|reflexivity].
  destruct (getattr (early_stop _) "eps") as [e|]; [|reflexivity].
  destruct (to_float e); [|reflexivity].
  destruct (iterate _) as [l|]; [|reflexivity].
  destruct (append_all l); [|reflexivity].
  destruct (getattr (optimizer _) "optimizer") as [o|]; [|reflexivity].
  destruct (to_str o); [|reflexivity].
  destruct (getattr (optimizer _) "kwargs") as [kw|]; [|reflexivity].
  destruct (json_dumps kw); [|reflexivity].
  destruct (to_str (loss _)); [|reflexivity].
  destruct (to_int (embed_dim _)); reflexivity.
Qed.

Lemma getattr_namespace (v x : pyval) (name : string) :
  getattr v name = Ok x -> exists a, v = PNamespace a.
Proof. destruct v; simpl; try discriminate. intros _. now eexists. Qed.

(** X17.  When [generate_pb] returns a record, the object is as it was and
    the record's strings are the object's: the method is the early-stop's
    [converge_func], the optimizer name its [optimizer], the loss its [loss],
    a metrics list is the list of the record's metric names in order, and the
    argument text is what [json.dumps] made of the optimizer's [kwargs]. *)
Theorem generate_pb_holds_values
    (self s : HeteroMatrixParam) (pb : HeteroMFParam) :
  generate_pb self = (Ok pb, s) ->
  s = self
  /\ loss (super self) = PStr (pb_loss pb)
  /\ getattr (early_stop (super self)) "converge_func"
     = Ok (PStr (pb_early_stop (pb_es pb)))
  /\ getattr (optimizer (super self)) "optimizer"
     = Ok (PStr (pb_optimizer (pb_opt pb)))
  /\ (forall l, metrics (super self) = PList l -> l = map PStr (pb_metrics pb))
  /\ (exists kw, getattr (optimizer (super self)) "kwargs" = Ok kw
                 /\ json_dumps kw = Ok (pb_args (pb_opt pb))).
Proof.
  intros H.
  destruct (generate_pb_inv _ _ _ H)
    as (Hs & _ & _ & _ & _ & (cf & Hcf & Hcfs) & _
        & (l & Hl & Hls) & (o & Ho & Hos) & Hkw & Hloss & _).
  apply to_str_inv in Hcfs, Hos, Hloss. subst cf o.
  repeat (split; [assumption|]).
  split; [|exact Hkw].
  intros l' Hm. rewrite Hm in Hl. cbn in Hl. injection Hl as <-.
  now apply append_all_inv.
Qed.

(** X18.  [generate_pb] needs the normal forms: on an object whose
    [early_stop] or [optimizer] is not a [SimpleNamespace] (as straight from
    the constructor, where they are a string or a mapping) it raises, and
    leaves the object as it was. *)
Theorem generate_pb_needs_normal_forms (self : HeteroMatrixParam) :
  (forall a, early_stop (super self) <> PNamespace a)
  \/ (forall a, optimizer (super self) <> PNamespace a) ->
  exists e, generate_pb self = (Raise e, self).
Proof.
  intros Hn. pose proof (generate_pb_state self) as Hs.
  destruct (generate_pb self) as [[pb|e] s] eqn:Hg; cbn in Hs; subst s.
  - exfalso.
    destruct (generate_pb_inv _ _ _ Hg)
      as (_ & _ & _ & _ & _ & (cf & Hcf & _) & _ & _ & (o & Ho & _) & _).
    destruct Hn as [Hn | Hn].
    + destruct (getattr_namespace _ _ _ Hcf) as (a & Ha). exact (Hn a Ha).
    + destruct (getattr_namespace _ _ _ Ho) as (a & Ha). exact (Hn a Ha).
  - now exists e.
Qed.

(** X19.  What [restore_from_pb] rebuilt from a record whose integers are in
    range, [generate_pb] persists again: the new record has the same flag,
    integers, method, epsilon, metrics, optimizer name and loss, and an
    argument text that [json.loads] reads as the same arguments. *)
Theorem restore_then_generate
    (pb : HeteroMFParam) (target t' : HeteroMatrixParam) :
  restore_from_pb pb target = (Ok tt, t') ->
  in_range pb = true ->
  exists args,
    generate_pb t'
    = (Ok {| pb_secure_aggregate := pb_secure_aggregate pb;
             pb_aggregate_every_n_epoch := pb_aggregate_every_n_epoch pb;
             pb_batch_size := pb_batch_size pb;
             pb_max_iter := pb_max_iter pb;
             pb_es := {| pb_early_stop := pb_early_stop (pb_es pb);
                         pb_eps := pb_eps (pb_es pb) |};
             pb_metrics := pb_metrics pb;
             pb_opt := {| pb_optimizer := pb_optimizer (pb_opt pb);
                          pb_args := args |};
             pb_loss := pb_loss pb;
             pb_embed_dim := pb_embed_dim pb |}, t')
    /\ json_loads args = json_loads (pb_args (pb_opt pb)).
Proof.
  intros H Hr. destruct (restore_ok_inv _ _ _ _ H) as (d & Hd & ->).
  destruct (restorable_inv _ _ Hd) as (_ & _ & Hl & _).
  assert (Hwf : wf (PDict d) = true /\ json_native (PDict d) = true).
  { destruct (pb_args (pb_opt pb)) as [|j]; [discriminate|].
    cbn in Hl. injection Hl as Hj. rewrite <- Hj.
    split; [apply decode_wf|apply decode_json_native]. }
  destruct Hwf as [Hwf Hser].
  destruct (loads_dumps _ Hwf Hser) as (a & Hdumps & Hloads).
  exists a. split; [|now rewrite Hloads, Hl].
  unfold in_range in Hr. repeat rewrite andb_true_iff in Hr.
  destruct Hr as [[[Hag Hbs] Hmi] Hed].
  unfold generate_pb, restored, bind, attr, eval, ret.
  cbn [super secure_aggregate aggregate_every_n_epoch early_stop metrics loss
         optimizer batch_size init_param max_iter embed_dim to_bool to_int
         to_str to_float getattr early_stop_ns optimizer_ns lookup iterate
         String.eqb Ascii.eqb Bool.eqb MatrixFactorizationParam_new
         MtxFInitParam_new].
  rewrite Hag, Hbs, Hmi, Hed, append_all_map, Hdumps. reflexivity.
Qed.

End GenerateFurther.

(** *** The further properties at work *)

Lemma hetero_check_aggregate_iters_witness :
  (exists b,
      HeteroMatrixParam_check
        {| super := default_param; aggregate_iters := PInt (-3) |}
      = (Ok (PBool true), {| super := b; aggregate_iters := PInt (-3) |})
      /\ canonical b)
  /\ (exists b,
         HeteroMatrixParam_check
           {| super := default_param; aggregate_iters := PFloat 1.0%float |}
         = (Raise (ValueError aggregate_iters_msg [PFloat 1.0%float]),
            {| super := b; aggregate_iters := PFloat 1.0%float |})
         /\ canonical b).
Proof.
  split.
  - destruct (@hetero_check_aggregate_iters sample
                {| super := default_param; aggregate_iters := PInt (-3) |})
      as (_ & H & _).
    apply H; reflexivity.
  - destruct (@hetero_check_aggregate_iters sample
                {| super := default_param;
                   aggregate_iters := PFloat 1.0%float |})
      as (_ & _ & H).
    apply H; reflexivity.
Defined.

Lemma restore_returns_iff_witness :
  restore_from_pb (sample_pb "abs" sample_args)
    (hetero_param (PStr "diff") (PStr "sgd"))
  = (Ok tt,
     restored (sample_pb "abs" sample_args)
       [("learning_rate", PFloat 0.1%float); ("decay", PInt 0)]
       (hetero_param (PStr "diff") (PStr "sgd")))
  /\ exists e t',
       restore_from_pb (sample_pb "abs" (Document (JArray [])))
         (hetero_param (PStr "diff") (PStr "sgd"))
       = (Raise e, t').
Proof.
  split.
  - destruct (@restore_returns_iff sample (sample_pb "abs" sample_args)
                (hetero_param (PStr "diff") (PStr "sgd"))) as (H & _).
    apply H. reflexivity.
  - destruct (@restore_returns_iff sample
                (sample_pb "abs" (Document (JArray [])))
                (hetero_param (PStr "diff") (PStr "sgd"))) as (_ & H & _).
    apply H. reflexivity.
Defined.

Lemma restore_assigns_only_persisted_witness :
  untouched_by_restore (hetero_param (PStr "diff") (PStr "sgd"))
    (snd (restore_from_pb (sample_pb "abs" Unparsable)
            (hetero_param (PStr "diff") (PStr "sgd")))).
Proof.
  apply (@restore_assigns_only_persisted sample (sample_pb "abs" Unparsable)
           (hetero_param (PStr "diff") (PStr "sgd")) _
           (Raise (ValueError "JSONDecodeError" []))).
  reflexivity.
Defined.

Lemma restore_empty_method_half_way_witness :
  fst (restore_from_pb (sample_pb "" sample_args)
         (hetero_param (PStr "diff") (PStr "sgd")))
  = Raise (ValueError "early_stop config: {} invalid"
             [PDict [("early_stop", PStr ""); ("eps", PFloat 0.01%float)]])
  /\ batch_size
       (super (snd (restore_from_pb (sample_pb "" sample_args)
                      (hetero_param (PStr "diff") (PStr "sgd")))))
     = PInt 64
  /\ early_stop
       (super (snd (restore_from_pb (sample_pb "" sample_args)
                      (hetero_param (PStr "diff") (PStr "sgd")))))
     = PStr "diff".
Proof.
  rewrite (@restore_empty_method_half_way sample (sample_pb "" sample_args)
             (hetero_param (PStr "diff") (PStr "sgd")) eq_refl).
  repeat split.
Defined.

Lemma restore_argument_text_failures_witness :
  fst (restore_from_pb (sample_pb "abs" Unparsable)
         (hetero_param (PStr "diff") (PStr "sgd")))
  = Raise (ValueError "JSONDecodeError" [])
  /\ exists msg,
       fst (restore_from_pb
              (sample_pb "abs"
                 (Document (JObject [("optimizer", JString "SGD")])))
              (hetero_param (PStr "diff") (PStr "sgd")))
       = Raise (TypeError msg).
Proof.
  split.
  - destruct (@restore_argument_text_failures sample
                (sample_pb "abs" Unparsable)
                (hetero_param (PStr "diff") (PStr "sgd")))
      as (H & _); [discriminate|].
    now rewrite (H eq_refl).
  - destruct (@restore_argument_text_failures sample
                (sample_pb "abs"
                   (Document (JObject [("optimizer", JString "SGD")])))
                (hetero_param (PStr "diff") (PStr "sgd")))
      as (_ & _ & H); [discriminate|].
    destruct (H _ [("optimizer", PStr "SGD")] eq_refl eq_refl eq_refl)
      as (msg & Hmsg).
    exists msg. now rewrite Hmsg.
Defined.

Lemma restored_object_fails_check_witness :
  fst (HeteroMatrixParam_check
         (snd (restore_from_pb (sample_pb "abs" sample_args)
                 (hetero_param (PStr "diff") (PStr "sgd")))))
  = Raise (ValueError "invalid type for early_stop: {}"
             [PStr "SimpleNamespace"]).
Proof.
  exact (f_equal fst
           (@restored_object_fails_check sample (sample_pb "abs" sample_args)
              (hetero_param (PStr "diff") (PStr "sgd"))
              (snd (restore_from_pb (sample_pb "abs" sample_args)
                      (hetero_param (PStr "diff") (PStr "sgd"))))
              eq_refl)).
Defined.

Lemma generate_pb_holds_values_witness :
  let self :=
    snd (HeteroMatrixParam_check
           (hetero_param (PStr "diff") (sgd_with (PInt 1)))) in
  exists pb,
    generate_pb self = (Ok pb, self)
    /\ loss (super self) = PStr (pb_loss pb)
    /\ metrics (super self) = PList (map PStr (pb_metrics pb)).
Proof.
  cbv zeta. eexists. split; [reflexivity|].
  match goal with
  | |- context [pb_loss ?pb] =>
      destruct (@generate_pb_holds_values sample
                  (snd (HeteroMatrixParam_check
                          (hetero_param (PStr "diff") (sgd_with (PInt 1)))))
                  _ pb eq_refl)
        as (_ & Hloss & _ & _ & Hm & _)
  end.
  split; [exact Hloss|].
  now rewrite <- (Hm [] eq_refl).
Defined.

Lemma generate_pb_needs_normal_forms_witness :
  exists e,
    generate_pb (hetero_param (PStr "diff") (PStr "sgd"))
    = (Raise e, hetero_param (PStr "diff") (PStr "sgd")).
Proof.
  apply (@generate_pb_needs_normal_forms sample).
  left. intros a. discriminate.
Defined.

Lemma restore_then_generate_witness :
  exists args,
    fst (generate_pb
           (snd (restore_from_pb (sample_pb "abs" sample_args)
                   (hetero_param (PStr "diff") (PStr "sgd")))))
    = Ok (sample_pb "abs" args)
    /\ json_loads args = json_loads sample_args.
Proof.
  destruct (@restore_then_generate sample (sample_pb "abs" sample_args)
              (hetero_param (PStr "diff") (PStr "sgd"))
              (snd (restore_from_pb (sample_pb "abs" sample_args)
                      (hetero_param (PStr "diff") (PStr "sgd"))))
              eq_refl eq_refl)
    as (args & Hg & Hl).
  exists args. split; [exact (f_equal fst Hg)|exact Hl].
Defined.
